(** * System health report: grading, aggregation and report emission

    A shallow embedding of [benchmark.py].  The script samples three
    utilisation percentages, grades each one against a fixed pair of
    thresholds, averages the grade scores into an overall grade and logs a
    thirteen-line report to the terminal and to a daily log file.

    Conventions of the embedding:
    - a Python number that is an [int] or a finite [float] is represented by
      its exact value in [Q]; Python compares mixed [int]/[float] operands by
      exact value, so [<] on such numbers is [Qlt];
    - the average of the three scores is computed by the script in binary64
      ([int / int] is true division) and compared with the binary64 literals
      [2.67] and [1.67]; this part is modelled with primitive floats;
    - strings are [string]; the dictionary [grade_mapping] is a [gmap];
    - the file system is a [gmap] from path to the list of lines of the file;
    - effects (clock, metric sources, log sinks, exceptions) are threaded
      through a state-and-exception monad [Py]. *)

From Stdlib Require Import ZArith QArith Qabs Lia Lqa List.
From Stdlib Require Import PrimFloat FloatOps SpecFloat Uint63.
From Stdlib Require Import Ascii String.
From stdpp Require Import base option list strings gmap.

Set Warnings "-inexact-float".
Local Open Scope Z_scope.

(** ** Python numbers *)

Module PyNum.

(** [x < y] on exact values. *)
Definition Qlt_bool (x y : Q) : bool :=
  (Qnum x * QDen y <? Qnum y * QDen x)%Z.

(** [float(z)] for an [int] small enough to be converted exactly. *)
Definition float_of_Z (z : Z) : float :=
  match z with
  | Z0 => PrimFloat.zero
  | Zpos _ => PrimFloat.of_uint63 (Uint63.of_Z z)
  | Zneg p => PrimFloat.opp (PrimFloat.of_uint63 (Uint63.of_Z (Zpos p)))
  end.

(** [a / b] on two [int]s: true division, the correctly rounded binary64
    quotient.  For operands below [2^53] this is the IEEE quotient of the two
    converted operands.  [b] is a non-zero literal at the only call site. *)
Definition truediv (a b : Z) : float :=
  PrimFloat.div (float_of_Z a) (float_of_Z b).

(** [x >= y] on floats. *)
Definition float_ge (x y : float) : bool := PrimFloat.leb y x.

(** The exact value of a finite binary64 number. *)
Definition SF2Q (f : spec_float) : option Q :=
  match f with
  | S754_zero _ => Some 0%Q
  | S754_finite s m e =>
      let n := if s then Zneg m else Zpos m in
      Some (match e with
            | Z0 => inject_Z n
            | Zpos k => inject_Z (n * 2 ^ Zpos k)
            | Zneg k => Qmake n (2 ^ k)%positive
            end)
  | _ => None
  end.

Definition float_value (f : float) : option Q := SF2Q (Prim2SF f).

End PyNum.
Import PyNum.

(** ** Exceptions *)

Record Exn := mkExn { exn_class : string; exn_arg : string }.

Definition KeyError (key : string) : Exn := mkExn "KeyError" key.

(** ** Grader and aggregator *)

(** The three letter grades of the data model, and the string each one is
    in the script. *)
Inductive Grade := A | B | C.

Definition letter (g : Grade) : string :=
  match g with A => "A" | B => "B" | C => "C" end.

(** [def grade(value, thresholds)], the helper nested in [generate_report]. *)
Definition grade (value : Q) (thresholds : Q * Q) : string :=
  if Qlt_bool value (fst thresholds) then "A"
  else if Qlt_bool value (snd thresholds) then "B"
  else "C".

(** [grade_mapping = {"A": 3, "B": 2, "C": 1}] *)
Definition grade_mapping : gmap string Z :=
  {[ "A" := 3; "B" := 2; "C" := 1 ]}.

(** [d[k]]: subscription raises [KeyError] on a missing key. *)
Definition getitem (d : gmap string Z) (k : string) : Exn + Z :=
  match d !! k with
  | Some v => inr v
  | None => inl (KeyError k)
  end.

(** [(grade_mapping[grade_cpu] + grade_mapping[grade_mem]
      + grade_mapping[grade_disk]) / 3], operands evaluated left to right. *)
Definition average_score (grade_cpu grade_mem grade_disk : string)
  : Exn + float :=
  match getitem grade_mapping grade_cpu with
  | inl e => inl e
  | inr a =>
      match getitem grade_mapping grade_mem with
      | inl e => inl e
      | inr b =>
          match getitem grade_mapping grade_disk with
          | inl e => inl e
          | inr c => inr (truediv (a + b + c) 3)
          end
      end
  end.

(** The [if average_score >= 2.67 ... elif average_score >= 1.67 ... else]
    chain. *)
Definition grade_of_average (average_score : float) : string :=
  if float_ge average_score 2.67%float then "A"
  else if float_ge average_score 1.67%float then "B"
  else "C".

(** The whole "compute overall grade" block of [generate_report]. *)
Definition overall_grade (grade_cpu grade_mem grade_disk : string)
  : Exn + string :=
  match average_score grade_cpu grade_mem grade_disk with
  | inl e => inl e
  | inr avg => inr (grade_of_average avg)
  end.

(** ** Calendar time and [strftime] *)

(** A [datetime.datetime] value.  The class validates its fields on
    construction; [valid_datetime] records the ranges it enforces. *)
Record datetime := mkDatetime {
  year : Z; month : Z; day : Z;
  hour : Z; minute : Z; second : Z; microsecond : Z }.

Definition valid_datetime (t : datetime) : Prop :=
  1 <= year t <= 9999 /\ 1 <= month t <= 12 /\ 1 <= day t <= 31 /\
  0 <= hour t <= 23 /\ 0 <= minute t <= 59 /\ 0 <= second t <= 59 /\
  0 <= microsecond t <= 999999.

(** The character of a decimal digit. *)
Definition digit (d : Z) : ascii := ascii_of_nat (48 + Z.to_nat (d mod 10)).

(** Zero-padded decimal field of width [w] (C's ["%0wd"] for a value below
    [10^w], which the field ranges of [datetime] guarantee). *)
Fixpoint zdigits (w : nat) (n : Z) : string :=
  match w with
  | O => EmptyString
  | S w' => String (digit (n / 10 ^ Z.of_nat w')) (zdigits w' n)
  end.

(** One conversion directive of [strftime]. *)
Definition directive (c : ascii) (t : datetime) : string :=
  match c with
  | "Y"%char => zdigits 4 (year t)
  | "m"%char => zdigits 2 (month t)
  | "d"%char => zdigits 2 (day t)
  | "H"%char => zdigits 2 (hour t)
  | "M"%char => zdigits 2 (minute t)
  | "S"%char => zdigits 2 (second t)
  | "%"%char => "%"
  | _ => String "%" (String c EmptyString)
  end.

(** [t.strftime(fmt)]: directives are expanded, other characters copied. *)
Fixpoint strftime (fmt : string) (t : datetime) : string :=
  match fmt with
  | EmptyString => EmptyString
  | String "%" (String c rest) => (directive c t ++ strftime rest t)%string
  | String c rest => String c (strftime rest t)
  end.

(** [current_date = datetime.datetime.now().strftime("%Y%d%m")] and
    [log_filename = f"{current_date}_system_health.log"], as functions of
    the clock reading. *)
Definition current_date (now : datetime) : string := strftime "%Y%d%m" now.

Definition log_filename (now : datetime) : string :=
  (current_date now ++ "_system_health.log")%string.

(** Reading a decimal numeral back, to state what the digits of a file name
    denote. *)
Definition digit_value (c : ascii) : option Z :=
  let n := Z.of_nat (nat_of_ascii c) in
  if (48 <=? n) && (n <=? 57) then Some (n - 48) else None.

Fixpoint int_of_digits (s : string) (acc : Z) : option Z :=
  match s with
  | EmptyString => Some acc
  | String c r =>
      match digit_value c with
      | Some d => int_of_digits r (10 * acc + d)
      | None => None
      end
  end.

Definition int_of_string (s : string) : option Z :=
  match s with
  | EmptyString => None
  | _ => int_of_digits s 0
  end.

(** ** Logging *)

Inductive Level := NOTSET | DEBUG | INFO | WARNING | ERROR | CRITICAL.

Definition levelno (l : Level) : Z :=
  match l with
  | NOTSET => 0 | DEBUG => 10 | INFO => 20
  | WARNING => 30 | ERROR => 40 | CRITICAL => 50
  end.

Definition levelname (l : Level) : string :=
  match l with
  | NOTSET => "NOTSET" | DEBUG => "DEBUG" | INFO => "INFO"
  | WARNING => "WARNING" | ERROR => "ERROR" | CRITICAL => "CRITICAL"
  end.

Record LogRecord := mkLogRecord {
  created : datetime; rec_level : Level; rec_msg : string }.

(** [%(asctime)s] with the default date format: seconds resolution followed
    by a comma and the milliseconds. *)
Definition asctime (t : datetime) : string :=
  (strftime "%Y-%m-%d %H:%M:%S" t ++ "," ++ zdigits 3 (microsecond t / 1000))%string.

(** [formatter = logging.Formatter('%(asctime)s - %(levelname)s - %(message)s')] *)
Definition formatter (r : LogRecord) : string :=
  (asctime (created r) ++ " - " ++ levelname (rec_level r) ++ " - " ++ rec_msg r)%string.

(** Where a handler writes: the terminal ([StreamHandler()] writes to
    [sys.stderr]) or a file opened by a [FileHandler]. *)
Inductive Stream := Stderr | File (path : string).

Record Handler := mkHandler { h_stream : Stream; h_level : Level }.

Record Logger := mkLogger {
  l_name : string; l_level : Level; l_handlers : list Handler }.

Definition getLogger (name : string) : Logger := mkLogger name NOTSET [].

Definition Logger_setLevel (l : Logger) (lvl : Level) : Logger :=
  mkLogger (l_name l) lvl (l_handlers l).

Definition Handler_setLevel (h : Handler) (lvl : Level) : Handler :=
  mkHandler (h_stream h) lvl.

Definition addHandler (l : Logger) (h : Handler) : Logger :=
  mkLogger (l_name l) (l_level l) (l_handlers l ++ [h]).

(** A logger whose own level is [NOTSET] inherits the root logger's level,
    which is [WARNING] when nothing configures it. *)
Definition getEffectiveLevel (l : Logger) : Level :=
  match l_level l with
  | NOTSET => WARNING
  | lvl => lvl
  end.

Inductive Mode := mode_w | mode_a.

(** ** The world and the monad of effects *)

(** What the run can observe and change. *)
Record World := mkWorld {
  stderr : list string;             (* lines the terminal handler wrote *)
  fs : gmap string (list string);   (* files: path to lines *)
  clock_reads : nat;                (* clock readings taken so far *)
  records : nat                     (* log records created so far *)
}.

(** What the host decides: the clock, the metric sources and whether an
    operation on a sink fails. *)
Record Env := mkEnv {
  clock : nat -> datetime;
  cpu_percent : Exn + Q;
  virtual_memory_percent : Exn + Q;
  disk_usage_percent : string -> Exn + Q;
  open_fault : string -> option Exn;
  write_fault : nat -> Stream -> option Exn
}.

Definition Py (A : Type) : Type := World -> (Exn + A) * World.

#[global] Instance Py_ret : MRet Py := fun A x w => (inr x, w).

(** Sequencing: an exception raised by the first computation is the outcome
    of the whole, in the world it was raised in. *)
#[global] Instance Py_bind : MBind Py := fun A B f m w =>
  match m w with
  | (inl e, w') => (inl e, w')
  | (inr x, w') => f x w'
  end.

(** A pure computation that may raise. *)
Definition lift {A} (r : Exn + A) : Py A := fun w => (r, w).

(** [datetime.datetime.now()] *)
Definition datetime_now (env : Env) : Py datetime := fun w =>
  (inr (clock env (clock_reads w)),
   mkWorld (stderr w) (fs w) (S (clock_reads w)) (records w)).

(** [psutil.cpu_percent(interval=1)], [psutil.virtual_memory().percent] and
    [psutil.disk_usage(path).percent]. *)
Definition psutil_cpu_percent (env : Env) : Py Q := lift (cpu_percent env).
Definition psutil_virtual_memory_percent (env : Env) : Py Q :=
  lift (virtual_memory_percent env).
Definition psutil_disk_usage_percent (env : Env) (path : string) : Py Q :=
  lift (disk_usage_percent env path).

(** Appending one line to a file. *)
Definition append_line (path line : string) (files : gmap string (list string))
  : gmap string (list string) :=
  <[path := default [] (files !! path) ++ [line]]> files.

(** Opening a file: mode ['w'] creates or truncates, mode ['a'] creates or
    keeps. *)
Definition open_file (env : Env) (path : string) (m : Mode) : Py unit := fun w =>
  match open_fault env path with
  | Some e => (inl e, w)
  | None =>
      (inr tt,
       mkWorld (stderr w)
         (match m with
          | mode_w => <[path := []]> (fs w)
          | mode_a => <[path := default [] (fs w !! path)]> (fs w)
          end)
         (clock_reads w) (records w))
  end.

(** [Handler.handleError(record)], which a handler calls when its write
    failed: it reports the failure on [sys.stderr] (when
    [logging.raiseExceptions] is set) and returns.  That diagnostic is not a
    log record and is not kept in [stderr]. *)
Definition handleError (e : Exn) : Py unit := mret tt.

(** [StreamHandler.emit] and [FileHandler.emit] for the line of record
    number [n]: the line is written to the stream and flushed.  When the
    write fails ([write_fault] gives the exception, an [OSError] such as a
    full disk or a broken pipe), the handler catches it and calls
    [handleError]: the record is lost on this sink and the call returns
    normally, so the next handler and the next records still run. *)
Definition stream_write (env : Env) (n : nat) (s : Stream) (line : string)
  : Py unit := fun w =>
  match write_fault env n s with
  | Some e => handleError e w
  | None =>
      (inr tt,
       match s with
       | Stderr => mkWorld (stderr w ++ [line]) (fs w) (clock_reads w) (records w)
       | File path =>
           mkWorld (stderr w) (append_line path line (fs w))
             (clock_reads w) (records w)
       end)
  end.

(** [logging.StreamHandler()] and [logging.FileHandler(filename, mode)]; the
    latter opens the file at once. *)
Definition StreamHandler : Handler := mkHandler Stderr NOTSET.

Definition FileHandler (env : Env) (filename : string) (m : Mode) : Py Handler :=
  open_file env filename m;;
  mret (mkHandler (File filename) NOTSET).

(** A handler writes the records at or above its level. *)
Definition Handler_handle (env : Env) (n : nat) (h : Handler) (r : LogRecord)
  : Py unit :=
  if levelno (h_level h) <=? levelno (rec_level r)
  then stream_write env n (h_stream h) (formatter r)
  else mret tt.

Fixpoint callHandlers (env : Env) (n : nat) (hs : list Handler) (r : LogRecord)
  : Py unit :=
  match hs with
  | [] => mret tt
  | h :: hs' => Handler_handle env n h r;; callHandlers env n hs' r
  end.

(** Taking the next record number. *)
Definition next_record : Py nat := fun w =>
  (inr (records w),
   mkWorld (stderr w) (fs w) (clock_reads w) (S (records w))).

(** [logger.log(lvl, msg)]: when the level is enabled, a record is created
    (stamped with the current time) and passed to the handlers in the order
    they were added. *)
Definition Logger_log (env : Env) (l : Logger) (lvl : Level) (msg : string)
  : Py unit :=
  if levelno (getEffectiveLevel l) <=? levelno lvl then
    t ← datetime_now env;
    n ← next_record;
    callHandlers env n (l_handlers l) (mkLogRecord t lvl msg)
  else mret tt.

Definition Logger_info (env : Env) (l : Logger) (msg : string) : Py unit :=
  Logger_log env l INFO msg.

(** ** The report *)

Section Report.

(** How an f-string renders a [float] (its [repr]). *)
Variable float_str : Q -> string.

Variable env : Env.

(** [def generate_report()], with the module-level [logger] as argument. *)
Definition generate_report (logger : Logger) : Py unit :=
  now ← datetime_now env;
  Logger_info env logger "===== System Health Report =====";;
  Logger_info env logger
    ("Report generated on: " ++ strftime "%Y-%m-%d %H:%M:%S" now)%string;;
  cpu_usage ← psutil_cpu_percent env;
  mem_usage ← psutil_virtual_memory_percent env;
  disk_usage ← psutil_disk_usage_percent env "C:\";
  Logger_info env logger "System Metrics:";;
  Logger_info env logger ("CPU Usage: " ++ float_str cpu_usage ++ "%")%string;;
  Logger_info env logger ("Memory Usage: " ++ float_str mem_usage ++ "%")%string;;
  Logger_info env logger ("Disk Usage: " ++ float_str disk_usage ++ "%")%string;;
  let grade_cpu := grade cpu_usage (30%Q, 60%Q) in
  let grade_mem := grade mem_usage (50%Q, 75%Q) in
  let grade_disk := grade disk_usage (40%Q, 70%Q) in
  Logger_info env logger "Metric Grades:";;
  Logger_info env logger ("CPU Grade: " ++ grade_cpu)%string;;
  Logger_info env logger ("Memory Grade: " ++ grade_mem)%string;;
  Logger_info env logger ("Disk Grade: " ++ grade_disk)%string;;
  overall_grade ← lift (overall_grade grade_cpu grade_mem grade_disk);
  Logger_info env logger "Overall System Grade:";;
  Logger_info env logger ("Final Grade: " ++ overall_grade)%string;;
  Logger_info env logger "===== End of Report =====".

(** The module body followed by the [__main__] guard: the file name is
    derived from the clock, the logger gets a terminal handler and a file
    handler opened with [mode], and the report is generated once.  The
    script is [script mode_w]. *)
Definition script (mode : Mode) : Py unit :=
  now ← datetime_now env;
  let log_filename := log_filename now in
  let logger := getLogger "SystemHealthReport" in
  let logger := Logger_setLevel logger DEBUG in
  let ch := StreamHandler in
  let ch := Handler_setLevel ch DEBUG in
  let logger := addHandler logger ch in
  fh ← FileHandler env log_filename mode;
  let fh := Handler_setLevel fh DEBUG in
  let logger := addHandler logger fh in
  generate_report logger.

Definition main : Py unit := script mode_w.

(** One run of a program as a process: a fresh terminal and fresh counters
    over the files found on disk. *)
Definition run_with (mode : Mode) (files : gmap string (list string))
  : (Exn + unit) * World :=
  script mode (mkWorld [] files 0 0).

Definition run (files : gmap string (list string)) : (Exn + unit) * World :=
  main (mkWorld [] files 0 0).

End Report.

(** ** Definitions used to state the properties *)

(** Quality order on grade letters, read off the score table:
    [a] is at least as good as [b]. *)
Definition grade_ge (a b : string) : Prop :=
  match grade_mapping !! a, grade_mapping !! b with
  | Some x, Some y => y <= x
  | _, _ => False
  end.

(** The score of a grade, as the data model gives it. *)
Definition score (g : Grade) : Z :=
  match g with A => 3 | B => 2 | C => 1 end.

(** The exact arithmetic mean of three scores. *)
Definition mean (g1 g2 g3 : Grade) : Q :=
  (inject_Z (score g1 + score g2 + score g3) / 3)%Q.

(** Highest qualifying bucket first, for two cut points on the mean. *)
Definition bucket (cut_a cut_b m : Q) : Grade :=
  if Qle_bool cut_a m then A else if Qle_bool cut_b m then B else C.

(** The aggregator in the specification's words: the exact mean against the
    decimal cut points 2.67 and 1.67. *)
Definition aggregate_spec (g1 g2 g3 : Grade) : Grade :=
  bucket (267 # 100) (167 # 100) (mean g1 g2 g3).

(** The same with the exact fractions 8/3 and 5/3 as cut points. *)
Definition aggregate_thirds (g1 g2 g3 : Grade) : Grade :=
  bucket (8 # 3) (5 # 3) (mean g1 g2 g3).

(** The grader in the specification's words. *)
Definition grade_spec (value low high : Q) : Grade :=
  if Qlt_le_dec value low then A
  else if Qlt_le_dec value high then B
  else C.

(** The file name a year/month/day ordering would give. *)
Definition conventional_filename (now : datetime) : string :=
  (strftime "%Y%m%d" now ++ "_system_health.log")%string.

(** Two clock readings on the same calendar date. *)
Definition same_date (t1 t2 : datetime) : Prop :=
  year t1 = year t2 /\ month t1 = month t2 /\ day t1 = day t2.

(** The log line format in the specification's words:
    [<timestamp> - <LEVEL> - <message>]. *)
Definition log_line_spec (stamp level message : string) : string :=
  (stamp ++ " - " ++ level ++ " - " ++ message)%string.

(** The report body in the specification's words: thirteen messages in a
    fixed order. *)
Definition report_body_spec (generated cpu mem disk : string)
    (g_cpu g_mem g_disk g_final : Grade) : list string :=
  [ "===== System Health Report =====";
    "Report generated on: " ++ generated;
    "System Metrics:";
    "CPU Usage: " ++ cpu ++ "%";
    "Memory Usage: " ++ mem ++ "%";
    "Disk Usage: " ++ disk ++ "%";
    "Metric Grades:";
    "CPU Grade: " ++ letter g_cpu;
    "Memory Grade: " ++ letter g_mem;
    "Disk Grade: " ++ letter g_disk;
    "Overall System Grade:";
    "Final Grade: " ++ letter g_final;
    "===== End of Report =====" ]%string.

(** The lines of a run for given messages: message [i] is stamped by the
    sink with clock reading [2 + i] (reading 0 names the file, reading 1 is
    the generation time of the report) and carries level INFO. *)
Definition stamp_lines (env : Env) (msgs : list string) : list string :=
  imap (fun i m => log_line_spec (asctime (clock env (2 + i)%nat)) "INFO" m) msgs.

(** The operations of a run that the host can make fail. *)
Inductive Op := OpOpen | OpCpu | OpMem | OpDisk | OpWrite (n : nat) (s : Stream).

Definition raised {T} (r : Exn + T) : option Exn :=
  match r with inl e => Some e | inr _ => None end.

Definition op_fault (env : Env) (logfile : string) (o : Op) : option Exn :=
  match o with
  | OpOpen => open_fault env logfile
  | OpCpu => raised (cpu_percent env)
  | OpMem => raised (virtual_memory_percent env)
  | OpDisk => raised (disk_usage_percent env "C:\")
  | OpWrite n s => write_fault env n s
  end.

(** Record [n] goes to the terminal, then to the file. *)
Definition emit_ops (logfile : string) (n : nat) : list Op :=
  [OpWrite n Stderr; OpWrite n (File logfile)].

(** The operations in the order the script performs them. *)
Definition run_ops (logfile : string) : list Op :=
  OpOpen :: emit_ops logfile 0 ++ emit_ops logfile 1
  ++ [OpCpu; OpMem; OpDisk]
  ++ concat (map (emit_ops logfile) (seq 2 11)).

(** The first operation of a list that fails, with the exception raised. *)
Fixpoint first_fault (env : Env) (logfile : string) (ops : list Op)
  : option (Op * Exn) :=
  match ops with
  | [] => None
  | o :: ops' =>
      match op_fault env logfile o with
      | Some e => Some (o, e)
      | None => first_fault env logfile ops'
      end
  end.

Definition run_fault (env : Env) : option (Op * Exn) :=
  first_fault env (log_filename (clock env 0%nat))
    (run_ops (log_filename (clock env 0%nat))).



(** The operations whose failure reaches the script: opening the log file
    and the three metric reads. *)
Definition source_ops : list Op := [OpOpen; OpCpu; OpMem; OpDisk].

Definition source_fault (env : Env) : option (Op * Exn) :=
  first_fault env (log_filename (clock env 0%nat)) source_ops.

(** What record [n] adds to sink [s]: its line, or nothing when the write
    fails. *)
Definition keep1 (env : Env) (n : nat) (s : Stream) (line : string)
  : list string :=
  match write_fault env n s with
  | None => [line]
  | Some _ => []
  end.

Definition file_write (env : Env) (n : nat) (path line : string)
    (files : gmap string (list string)) : gmap string (list string) :=
  match write_fault env n (File path) with
  | None => append_line path line files
  | Some _ => files
  end.

(** What sink [s] holds after the handlers were given [lines] as records
    [n], [n + 1], ..., on top of [acc]. *)
Fixpoint kept_onto (env : Env) (s : Stream) (acc : list string) (n : nat)
    (lines : list string) : list string :=
  match lines with
  | [] => acc
  | l :: ls => kept_onto env s (acc ++ keep1 env n s l) (S n) ls
  end.

(** A metric reading, or 0 where the source failed. *)
Definition reading (r : Exn + Q) : Q :=
  match r with inr q => q | inl _ => 0%Q end.

Section FullReport.

Variable float_str : Q -> string.
Variable env : Env.

(** The thirteen lines the run emits when nothing fails; a run that a
    failing metric source ends has emitted the first two. *)
Definition full_report : list string :=
  let cpu := reading (cpu_percent env) in
  let mem := reading (virtual_memory_percent env) in
  let disk := reading (disk_usage_percent env "C:\") in
  let g_cpu := grade_spec cpu 30 60 in
  let g_mem := grade_spec mem 50 75 in
  let g_disk := grade_spec disk 40 70 in
  stamp_lines env
    (report_body_spec (strftime "%Y-%m-%d %H:%M:%S" (clock env 1%nat))
       (float_str cpu) (float_str mem) (float_str disk)
       g_cpu g_mem g_disk (aggregate_spec g_cpu g_mem g_disk)).

End FullReport.

(** The logger as the module body leaves it. *)
Definition configured_logger (logfile : string) : Logger :=
  mkLogger "SystemHealthReport" DEBUG
    [mkHandler Stderr DEBUG; mkHandler (File logfile) DEBUG].

(** What the log file holds right after it is opened. *)
Definition opened_content (mode : Mode) (files : gmap string (list string))
    (logfile : string) : list string :=
  match mode with
  | mode_w => []
  | mode_a => default [] (files !! logfile)
  end.

(** A run in which no operation fails, with its three readings. *)
Definition runs_clean (env : Env) (cpu mem disk : Q) : Prop :=
  cpu_percent env = inr cpu /\
  virtual_memory_percent env = inr mem /\
  disk_usage_percent env "C:\" = inr disk /\
  open_fault env (log_filename (clock env 0%nat)) = None /\
  (forall n s, write_fault env n s = None).

Section Outcome.

Variable float_str : Q -> string.
Variable env : Env.
Variable mode : Mode.
Variable files : gmap string (list string).

(** The records handed to the handlers: none when the log file cannot be
    opened, the first two when a metric read fails, otherwise all
    thirteen. *)
Definition emitted : list string :=
  match source_fault env with
  | None => full_report float_str env
  | Some (OpOpen, _) => []
  | Some _ => take 2 (full_report float_str env)
  end.

(** The outcome of a run: its result is decided by the log file opening and
    the metric reads; each sink holds the emitted lines whose write
    worked. *)
Definition outcome_spec (r : (Exn + unit) * World) : Prop :=
  let lf := log_filename (clock env 0%nat) in
  let base := opened_content mode files lf in
  let w' c n :=
    mkWorld (kept_onto env Stderr [] 0 emitted)
      (<[lf := kept_onto env (File lf) base 0 emitted]> files) c n in
  match source_fault env with
  | None => r = (inr tt, w' 15%nat 13%nat)
  | Some (OpOpen, e) => r = (inl e, mkWorld [] files 1 0)
  | Some (_, e) => r = (inl e, w' 4%nat 2%nat)
  end.

End Outcome.

(** Example hosts on 3 November 2026, with a clock that advances one second
    per reading: one where everything works, one started later the same
    day, one whose memory source fails and one whose disk fills up while
    the log is written. *)
Module Examples.

Definition clock_on (d : Z) (k : nat) : datetime :=
  mkDatetime 2026 11 d 13 30 (Z.of_nat k) (123456 * Z.of_nat k).

Definition float_str (q : Q) : string := "12.5".

Definition env_ok : Env :=
  mkEnv (clock_on 3) (inr (295 # 10)%Q) (inr 50%Q) (fun _ => inr (812 # 10)%Q)
    (fun _ => None) (fun _ _ => None).

Definition env_later : Env :=
  mkEnv (fun k => clock_on 3 (k + 100)) (inr 10%Q) (inr 20%Q) (fun _ => inr 30%Q)
    (fun _ => None) (fun _ _ => None).

Definition env_mem_fails : Env :=
  mkEnv (clock_on 3) (inr (295 # 10)%Q) (inl (mkExn "OSError" "unavailable"))
    (fun _ => inr (812 # 10)%Q) (fun _ => None) (fun _ _ => None).


End Examples.

(** ** The module body on its own, repeated calls and the grade pipeline *)

Section Session.

Variable float_str : Q -> string.
Variable env : Env.

(** The module body without the [__main__] guard, which is what importing
    the module runs: it derives the file name, configures the logger and
    opens the log file; the result is the module-level [logger]. *)
Definition module_body (mode : Mode) : Py Logger :=
  now ← datetime_now env;
  let log_filename := log_filename now in
  let logger := getLogger "SystemHealthReport" in
  let logger := Logger_setLevel logger DEBUG in
  let ch := StreamHandler in
  let ch := Handler_setLevel ch DEBUG in
  let logger := addHandler logger ch in
  fh ← FileHandler env log_filename mode;
  let fh := Handler_setLevel fh DEBUG in
  let logger := addHandler logger fh in
  mret logger.

(** A process that imports the module and calls [generate_report()] twice. *)
Definition report_twice : Py unit :=
  logger ← module_body mode_w;
  generate_report float_str env logger;;
  generate_report float_str env logger.

(** The thirteen lines of a report generated when [c] clock readings have
    been taken: the generation time is reading [c], message [i] is stamped
    with reading [c + 1 + i]. *)
Definition report_at (c : nat) : list string :=
  let cpu := reading (cpu_percent env) in
  let mem := reading (virtual_memory_percent env) in
  let disk := reading (disk_usage_percent env "C:\") in
  let g_cpu := grade_spec cpu 30 60 in
  let g_mem := grade_spec mem 50 75 in
  let g_disk := grade_spec disk 40 70 in
  imap (fun i m => log_line_spec (asctime (clock env (S i + c)%nat)) "INFO" m)
    (report_body_spec (strftime "%Y-%m-%d %H:%M:%S" (clock env c))
       (float_str cpu) (float_str mem) (float_str disk)
       g_cpu g_mem g_disk (aggregate_spec g_cpu g_mem g_disk)).

End Session.

(** The grade computation of [generate_report], from the three readings to
    the final grade. *)
Definition final_grade (cpu_usage mem_usage disk_usage : Q) : Exn + string :=
  overall_grade (grade cpu_usage (30%Q, 60%Q)) (grade mem_usage (50%Q, 75%Q))
    (grade disk_usage (40%Q, 70%Q)).

(** The metric sources and the sinks work. *)
Definition sources_ok (env : Env) (cpu mem disk : Q) : Prop :=
  cpu_percent env = inr cpu /\
  virtual_memory_percent env = inr mem /\
  disk_usage_percent env "C:\" = inr disk /\
  (forall n s, write_fault env n s = None).

(** A host on the following day. *)
Module MoreExamples.

Definition env_next_day : Env :=
  mkEnv (Examples.clock_on 4) (inr 10%Q) (inr 20%Q) (fun _ => inr 30%Q)
    (fun _ => None) (fun _ _ => None).

End MoreExamples.

(** * Properties *)

(** ** Comparisons on exact values *)

Lemma Qlt_bool_iff (x y : Q) : Qlt_bool x y = true <-> (x < y)%Q.
Proof. unfold Qlt_bool, Qlt. apply Z.ltb_lt. Qed.

Lemma Qlt_bool_false_iff (x y : Q) : Qlt_bool x y = false <-> (y <= x)%Q.
Proof. unfold Qlt_bool, Qle. rewrite Z.ltb_ge. reflexivity. Qed.

Lemma Qlt_bool_spec (x y : Q) : reflect (x < y)%Q (Qlt_bool x y).
Proof.
  destruct (Qlt_bool x y) eqn:E; constructor.
  - now apply Qlt_bool_iff.
  - apply Qlt_bool_false_iff in E. lra.
Qed.

(** ** The grader *)

Lemma grade_spec_correct (value low high : Q) :
  grade value (low, high) = letter (grade_spec value low high).
Proof.
  unfold grade, grade_spec; simpl.
  destruct (Qlt_bool_spec value low), (Qlt_le_dec value low); try lra; auto.
  destruct (Qlt_bool_spec value high), (Qlt_le_dec value high); try lra; auto.
Qed.

Lemma grade_A (value low high : Q) :
  (value < low)%Q -> grade value (low, high) = "A"%string.
Proof.
  intros H. unfold grade; simpl. now destruct (Qlt_bool_spec value low).
Qed.

Lemma grade_B (value low high : Q) :
  (low <= value)%Q -> (value < high)%Q -> grade value (low, high) = "B"%string.
Proof.
  intros H1 H2. unfold grade; simpl.
  destruct (Qlt_bool_spec value low); [lra|].
  now destruct (Qlt_bool_spec value high).
Qed.

Lemma grade_C (value low high : Q) :
  (low <= value)%Q -> (high <= value)%Q -> grade value (low, high) = "C"%string.
Proof.
  intros H1 H2. unfold grade; simpl.
  destruct (Qlt_bool_spec value low); [lra|].
  destruct (Qlt_bool_spec value high); [lra|reflexivity].
Qed.

(** ** Scores and the aggregator *)

Lemma score_lookup (g : Grade) : grade_mapping !! letter g = Some (score g).
Proof. destruct g; reflexivity. Qed.

Lemma score_range (g : Grade) : 1 <= score g <= 3.
Proof. destruct g; simpl; lia. Qed.

Lemma grade_ge_letter (g h : Grade) :
  grade_ge (letter g) (letter h) <-> score h <= score g.
Proof. unfold grade_ge. rewrite !score_lookup. reflexivity. Qed.

Lemma getitem_letter (g : Grade) : getitem grade_mapping (letter g) = inr (score g).
Proof. unfold getitem. now rewrite score_lookup. Qed.

Lemma average_score_letters (g1 g2 g3 : Grade) :
  average_score (letter g1) (letter g2) (letter g3)
  = inr (truediv (score g1 + score g2 + score g3) 3).
Proof. unfold average_score. now rewrite !getitem_letter. Qed.

Lemma overall_grade_letters (g1 g2 g3 : Grade) :
  overall_grade (letter g1) (letter g2) (letter g3)
  = inr (grade_of_average (truediv (score g1 + score g2 + score g3) 3)).
Proof. unfold overall_grade. now rewrite average_score_letters. Qed.

(** Grading the binary64 quotient [s / 3] of an attainable sum [s]. *)
Lemma grade_of_sum (s : Z) :
  3 <= s <= 9 ->
  grade_of_average (truediv s 3)
  = if 9 <=? s then "A"%string else if 6 <=? s then "B"%string else "C"%string.
Proof.
  intros H.
  assert (s = 3 \/ s = 4 \/ s = 5 \/ s = 6 \/ s = 7 \/ s = 8 \/ s = 9) as Hs by lia.
  repeat (destruct Hs as [->|Hs]; [vm_compute; reflexivity|]).
  subst. vm_compute. reflexivity.
Qed.

Lemma overall_grade_spec (g1 g2 g3 : Grade) :
  overall_grade (letter g1) (letter g2) (letter g3)
  = inr (letter (aggregate_spec g1 g2 g3)).
Proof.
  rewrite overall_grade_letters. destruct g1, g2, g3; vm_compute; reflexivity.
Qed.

(** The sum of the scores of a list of grades does not depend on their
    order. *)
Lemma score_sum_perm (l l' : list Grade) :
  l ≡ₚ l' -> foldr (fun g acc => score g + acc) 0 l
            = foldr (fun g acc => score g + acc) 0 l'.
Proof.
  induction 1 as [|x l l' _ IH|x y l|l l' l'' _ IH1 _ IH2]; simpl.
  - reflexivity.
  - now rewrite IH.
  - lia.
  - now rewrite IH1.
Qed.

Lemma score_sum3_perm (g1 g2 g3 h1 h2 h3 : Grade) :
  [g1; g2; g3] ≡ₚ [h1; h2; h3] ->
  score g1 + score g2 + score g3 = score h1 + score h2 + score h3.
Proof. intros H. apply score_sum_perm in H. simpl in H. lia. Qed.

(** C5: for thresholds [low < high] and values [value1 < value2], the grade
    of [value1] is at least as good as the grade of [value2] in the order
    A > B > C given by the scores. *)
Theorem grade_monotone (low high value1 value2 : Q) :
  (low < high)%Q -> (value1 < value2)%Q ->
  grade_ge (grade value1 (low, high)) (grade value2 (low, high)).
Proof.
  intros Hlh Hv.
  rewrite !grade_spec_correct. apply grade_ge_letter.
  unfold grade_spec.
  destruct (Qlt_le_dec value1 low), (Qlt_le_dec value2 low),
    (Qlt_le_dec value1 high), (Qlt_le_dec value2 high); simpl; try lia; lra.
Qed.

Lemma grade_monotone_witness :
  (30 < 60)%Q /\ (295 # 10 < 45)%Q /\
  grade_ge (grade (295 # 10) (30%Q, 60%Q)) (grade 45 (30%Q, 60%Q)).
Proof.
  split; [reflexivity|]. split; [reflexivity|].
  apply (grade_monotone 30 60 (295 # 10) 45); reflexivity.
Defined.

(** C2: on every triple of grades the script maps each grade to its score
    through {A:3, B:2, C:1}, computes their mean (the binary64 value it
    computes is within 2^-52 of the exact mean) and returns what the
    specification's aggregator returns with the decimal cut points 2.67 and
    1.67 (the binary64 literals are within 2^-52 of these decimals); with
    the exact fractions 8/3 and 5/3 the result would differ. *)
Theorem aggregate_refines_spec (g1 g2 g3 : Grade) :
  (grade_mapping !! letter g1 = Some (score g1) /\
   grade_mapping !! letter g2 = Some (score g2) /\
   grade_mapping !! letter g3 = Some (score g3)) /\
  (exists avg q,
      average_score (letter g1) (letter g2) (letter g3) = inr avg /\
      float_value avg = Some q /\
      (Qabs (q - mean g1 g2 g3) <= 1 # 2 ^ 52)%Q) /\
  (exists c1 c2,
      float_value 2.67%float = Some c1 /\ (Qabs (c1 - (267 # 100)) <= 1 # 2 ^ 52)%Q /\
      float_value 1.67%float = Some c2 /\ (Qabs (c2 - (167 # 100)) <= 1 # 2 ^ 52)%Q) /\
  overall_grade (letter g1) (letter g2) (letter g3)
  = inr (letter (aggregate_spec g1 g2 g3)) /\
  (aggregate_spec A A B = B /\ aggregate_thirds A A B = A) /\
  (aggregate_spec B B C = C /\ aggregate_thirds B B C = B).
Proof.
  split; [now rewrite !score_lookup|].
  split.
  { rewrite average_score_letters.
    destruct g1, g2, g3;
      (eexists; eexists; split; [reflexivity|split; [vm_compute; reflexivity|]];
       vm_compute; discriminate). }
  split.
  { eexists; eexists.
    split; [vm_compute; reflexivity|]. split; [vm_compute; discriminate|].
    split; [vm_compute; reflexivity|]. vm_compute; discriminate. }
  split; [apply overall_grade_spec|].
  split; split; vm_compute; reflexivity.
Qed.

(** C3, as stated, fails: two grades A and one grade B have mean 8/3, which
    does not reach 2.67, and the overall grade is "B", not "A". *)
Lemma two_A_one_B_is_not_A :
  ~ (267 # 100 <= mean A A B)%Q /\
  overall_grade (letter A) (letter A) (letter B) = inr "B"%string /\
  overall_grade (letter A) (letter A) (letter B) <> inr "A"%string.
Proof.
  split; [vm_compute; intros H; apply H; reflexivity|].
  split; [vm_compute; reflexivity|vm_compute; discriminate].
Qed.

(** C3, amended: the cut point 2.67 lies strictly above the attainable mean
    8/3: for every arrangement of two grades A and one grade B the mean is
    8/3, below 2.67, the computed average does not reach the literal 2.67
    and the overall grade is "B". *)
Theorem two_A_one_B_below_cut (g1 g2 g3 : Grade) :
  [g1; g2; g3] ≡ₚ [A; A; B] ->
  (mean g1 g2 g3 == 8 # 3)%Q /\
  (mean g1 g2 g3 < 267 # 100)%Q /\
  (exists avg,
      average_score (letter g1) (letter g2) (letter g3) = inr avg /\
      float_ge avg 2.67%float = false /\ float_ge avg 1.67%float = true) /\
  overall_grade (letter g1) (letter g2) (letter g3) = inr "B"%string.
Proof.
  intros H. apply score_sum3_perm in H. simpl in H.
  rewrite average_score_letters, overall_grade_letters.
  unfold mean. rewrite H.
  split; [reflexivity|]. split; [reflexivity|].
  split; [eexists; split; [reflexivity|split; vm_compute; reflexivity]|].
  vm_compute. reflexivity.
Qed.

Lemma two_A_one_B_below_cut_witness :
  [A; B; A] ≡ₚ [A; A; B] /\
  overall_grade (letter A) (letter B) (letter A) = inr "B"%string.
Proof.
  assert (H : [A; B; A] ≡ₚ [A; A; B]) by (constructor; constructor).
  split; [exact H|].
  exact (proj2 (proj2 (proj2 (two_A_one_B_below_cut A B A H)))).
Defined.

(** C4: the overall grade is determined by the sum [s] of the three scores:
    it is "A" exactly when [s = 9], that is when all three grades are A,
    "B" exactly when [6 <= s <= 8] and "C" exactly when [s <= 5]; two A's and
    one B (mean 8/3 < 2.67) give "B", two B's and one C (mean 5/3 < 1.67)
    give "C". *)
Theorem sum_determines_overall (g1 g2 g3 : Grade) :
  (getitem grade_mapping (letter g1) = inr (score g1) /\
   getitem grade_mapping (letter g2) = inr (score g2) /\
   getitem grade_mapping (letter g3) = inr (score g3)) /\
  (1 <= score g1 <= 3 /\ 1 <= score g2 <= 3 /\ 1 <= score g3 <= 3) /\
  (overall_grade (letter g1) (letter g2) (letter g3) = inr "A"%string
   <-> score g1 + score g2 + score g3 = 9) /\
  (score g1 + score g2 + score g3 = 9 <-> g1 = A /\ g2 = A /\ g3 = A) /\
  (overall_grade (letter g1) (letter g2) (letter g3) = inr "B"%string
   <-> 6 <= score g1 + score g2 + score g3 <= 8) /\
  (overall_grade (letter g1) (letter g2) (letter g3) = inr "C"%string
   <-> score g1 + score g2 + score g3 <= 5) /\
  (overall_grade "A" "A" "B" = inr "B"%string /\ (8 # 3 < 267 # 100)%Q) /\
  (overall_grade "B" "B" "C" = inr "C"%string /\ (5 # 3 < 167 # 100)%Q).
Proof.
  split; [now rewrite !getitem_letter|].
  split; [auto using score_range|].
  pose proof (score_range g1). pose proof (score_range g2).
  pose proof (score_range g3).
  rewrite overall_grade_letters, grade_of_sum by lia.
  split; [|split; [|split; [|split; [|split]]]].
  - destruct (Z.leb_spec 9 (score g1 + score g2 + score g3)).
    + split; [lia|reflexivity].
    + destruct (6 <=? _); split; (discriminate || lia).
  - destruct g1, g2, g3; simpl; split;
      (lia || (intros (? & ? & ?); discriminate) || auto).
  - destruct (Z.leb_spec 9 (score g1 + score g2 + score g3)).
    + split; [discriminate|lia].
    + destruct (Z.leb_spec 6 (score g1 + score g2 + score g3));
        split; (discriminate || lia || reflexivity).
  - destruct (Z.leb_spec 9 (score g1 + score g2 + score g3)).
    + split; [discriminate|lia].
    + destruct (Z.leb_spec 6 (score g1 + score g2 + score g3));
        split; (discriminate || lia || reflexivity).
  - split; [vm_compute|]; reflexivity.
  - split; [vm_compute|]; reflexivity.
Qed.

(** C6: permuting the three grades changes neither the score sum, nor the
    computed average, nor the overall grade. *)
Theorem aggregate_symmetric (g1 g2 g3 h1 h2 h3 : Grade) :
  [g1; g2; g3] ≡ₚ [h1; h2; h3] ->
  score g1 + score g2 + score g3 = score h1 + score h2 + score h3 /\
  mean g1 g2 g3 = mean h1 h2 h3 /\
  average_score (letter g1) (letter g2) (letter g3)
  = average_score (letter h1) (letter h2) (letter h3) /\
  overall_grade (letter g1) (letter g2) (letter g3)
  = overall_grade (letter h1) (letter h2) (letter h3).
Proof.
  intros H. apply score_sum3_perm in H.
  unfold mean. rewrite !average_score_letters, !overall_grade_letters, H. auto.
Qed.

Lemma aggregate_symmetric_witness :
  [A; B; C] ≡ₚ [C; A; B] /\
  overall_grade (letter A) (letter B) (letter C)
  = overall_grade (letter C) (letter A) (letter B).
Proof.
  assert (H : [A; B; C] ≡ₚ [C; A; B]).
  { apply (@perm_trans _ _ [A; C; B]); repeat constructor. }
  split; [exact H|].
  exact (proj2 (proj2 (proj2 (aggregate_symmetric A B C C A B H)))).
Defined.

(** ** Decimal fields and the log file name *)

Lemma digit_value_digit (d : Z) : digit_value (digit d) = Some (d mod 10).
Proof.
  unfold digit_value, digit.
  pose proof (Z.mod_pos_bound d 10 ltac:(lia)) as Hd.
  rewrite nat_ascii_embedding by lia.
  rewrite Nat2Z.inj_add, Z2Nat.id by lia.
  change (Z.of_nat 48) with 48.
  rewrite !(proj2 (Z.leb_le _ _)) by lia.
  cbn [andb]. f_equal. lia.
Qed.

Lemma int_of_digits_zdigits (w : nat) (n acc : Z) :
  int_of_digits (zdigits w n) acc
  = Some (acc * 10 ^ Z.of_nat w + n mod 10 ^ Z.of_nat w).
Proof.
  revert acc. induction w as [|w IH]; intros acc.
  - cbn [zdigits int_of_digits Z.of_nat].
    rewrite Z.pow_0_r, Z.mod_1_r. f_equal. lia.
  - cbn [zdigits int_of_digits]. rewrite digit_value_digit, IH. f_equal.
    rewrite Nat2Z.inj_succ, Z.pow_succ_r by lia.
    assert (0 < 10 ^ Z.of_nat w) by (apply Z.pow_pos_nonneg; lia).
    rewrite (Z.mul_comm 10 (10 ^ Z.of_nat w)).
    rewrite Z.rem_mul_r by lia. lia.
Qed.

(** Reading back a field of width [w] gives the number printed. *)
Lemma int_of_string_zdigits (w : nat) (n : Z) :
  (0 < w)%nat -> 0 <= n < 10 ^ Z.of_nat w ->
  int_of_string (zdigits w n) = Some n.
Proof.
  intros Hw Hn. destruct w as [|w]; [lia|].
  change (int_of_string (zdigits (S w) n)) with (int_of_digits (zdigits (S w) n) 0).
  rewrite int_of_digits_zdigits, Z.mod_small by lia. reflexivity.
Qed.

Lemma log_filename_chars (t : datetime) :
  log_filename t
  = (zdigits 4 (year t) ++ zdigits 2 (day t) ++ zdigits 2 (month t)
     ++ "_system_health.log")%string.
Proof. reflexivity. Qed.

Lemma conventional_filename_chars (t : datetime) :
  conventional_filename t
  = (zdigits 4 (year t) ++ zdigits 2 (month t) ++ zdigits 2 (day t)
     ++ "_system_health.log")%string.
Proof. reflexivity. Qed.

(** The file name has daily resolution. *)
Lemma log_filename_same_date (t1 t2 : datetime) :
  same_date t1 t2 -> log_filename t1 = log_filename t2.
Proof.
  intros (Hy & Hm & Hd). rewrite !log_filename_chars. congruence.
Qed.

(** C7: the log file name is eight date digits followed by
    "_system_health.log"; digits 1-4 are the year, digits 5-6 the day of the
    month and digits 7-8 the month, so that the name differs from the
    year/month/day name whenever day and month differ. *)
Theorem log_filename_year_day_month (now : datetime) :
  valid_datetime now ->
  String.length (log_filename now) = 26%nat /\
  int_of_string (substring 0 4 (log_filename now)) = Some (year now) /\
  int_of_string (substring 4 2 (log_filename now)) = Some (day now) /\
  int_of_string (substring 6 2 (log_filename now)) = Some (month now) /\
  substring 8 18 (log_filename now) = "_system_health.log"%string /\
  (day now <> month now -> log_filename now <> conventional_filename now).
Proof.
  intros (Hy & Hm & Hd & _).
  assert (Hday : int_of_string (substring 4 2 (log_filename now)) = Some (day now)).
  { rewrite log_filename_chars. cbn [zdigits String.append substring].
    apply (int_of_string_zdigits 2); simpl; lia. }
  assert (Hmon : int_of_string (substring 4 2 (conventional_filename now))
                 = Some (month now)).
  { rewrite conventional_filename_chars. cbn [zdigits String.append substring].
    apply (int_of_string_zdigits 2); simpl; lia. }
  split; [reflexivity|].
  split; [|split; [exact Hday|split; [|split; [reflexivity|]]]].
  - rewrite log_filename_chars. cbn [zdigits String.append substring].
    apply (int_of_string_zdigits 4); simpl; lia.
  - rewrite log_filename_chars. cbn [zdigits String.append substring].
    apply (int_of_string_zdigits 2); simpl; lia.
  - intros Hne Heq. rewrite Heq, Hmon in Hday. congruence.
Qed.

Lemma log_filename_year_day_month_witness :
  valid_datetime (Examples.clock_on 3 0) /\
  log_filename (Examples.clock_on 3 0) = "20260311_system_health.log"%string /\
  int_of_string (substring 4 2 (log_filename (Examples.clock_on 3 0))) = Some 3.
Proof.
  assert (H : valid_datetime (Examples.clock_on 3 0)) by (vm_compute; intuition discriminate).
  split; [exact H|]. split; [reflexivity|].
  exact (proj1 (proj2 (proj2 (log_filename_year_day_month _ H)))).
Defined.

(** ** Running the script *)

Lemma bind_eval {X Y} (m : Py X) (f : X -> Py Y) (w : World) :
  (m ≫= f) w = match m w with
               | (inl e, w') => (inl e, w')
               | (inr x, w') => f x w'
               end.
Proof. reflexivity. Qed.

(** One [logger.info] call on the configured logger: the record goes to
    the terminal handler, then to the file handler; each keeps the line
    unless its write fails, and the call returns normally. *)
Lemma Logger_info_eval env p msg w :
  Logger_info env (configured_logger p) msg w =
  let line := formatter (mkLogRecord (clock env (clock_reads w)) INFO msg) in
  (inr tt,
   mkWorld (stderr w ++ keep1 env (records w) Stderr line)
     (file_write env (records w) p line (fs w))
     (S (clock_reads w)) (S (records w))).
Proof.
  unfold Logger_info, Logger_log, configured_logger. cbn.
  unfold mbind, Py_bind, stream_write, handleError, keep1, file_write,
    mret, Py_ret. cbn.
  destruct (write_fault env (records w) Stderr);
    destruct (write_fault env (records w) (File p));
    cbn; rewrite ?app_nil_r; reflexivity.
Qed.

Lemma append_line_insert (p l : string) (ls : list string)
    (m : gmap string (list string)) :
  append_line p l (<[p := ls]> m) = <[p := ls ++ [l]]> m.
Proof.
  unfold append_line. rewrite lookup_insert_eq, insert_insert_eq. reflexivity.
Qed.

Lemma file_write_insert env n (p l : string) (ls : list string)
    (m : gmap string (list string)) :
  file_write env n p l (<[p := ls]> m) = <[p := ls ++ keep1 env n (File p) l]> m.
Proof.
  unfold file_write, keep1. destruct (write_fault env n (File p)).
  - now rewrite app_nil_r.
  - apply append_line_insert.
Qed.

(** Where every write works, a sink keeps every line. *)
Lemma kept_onto_all env s acc n lines :
  (forall i, (i < length lines)%nat -> write_fault env (n + i) s = None) ->
  kept_onto env s acc n lines = acc ++ lines.
Proof.
  revert acc n. induction lines as [|l ls IH]; intros acc n H; simpl.
  - now rewrite app_nil_r.
  - unfold keep1. rewrite <- (Nat.add_0_r n) at 1. rewrite (H 0%nat) by (simpl; lia).
    rewrite IH, <- app_assoc; [reflexivity|].
    intros i Hi. replace (S n + i)%nat with (n + S i)%nat by lia.
    apply H. simpl. lia.
Qed.

Section Run.

Variable float_str : Q -> string.
Variable env : Env.
Variable files : gmap string (list string).

Lemma run_with_unfold (mode : Mode) :
  run_with float_str env mode files =
  let lf := log_filename (clock env 0%nat) in
  match open_fault env lf with
  | Some e => (inl e, mkWorld [] files 1 0)
  | None =>
      generate_report float_str env (configured_logger lf)
        (mkWorld [] (<[lf := opened_content mode files lf]> files) 1 0)
  end.
Proof.
  cbv beta iota zeta delta [run_with script mbind Py_bind mret Py_ret datetime_now
    FileHandler open_file clock_reads stderr fs records].
  destruct (open_fault env (log_filename (clock env 0%nat))); [reflexivity|].
  destruct mode; reflexivity.
Qed.

Ltac emit :=
  rewrite ?bind_eval, Logger_info_eval;
  cbn [clock_reads stderr fs records]; cbn zeta;
  rewrite file_write_insert.

Ltac metric r :=
  rewrite bind_eval;
  unfold psutil_cpu_percent, psutil_virtual_memory_percent,
    psutil_disk_usage_percent, lift;
  destruct r as [?|?] eqn:?; cbn [raised]; [reflexivity|].

(** The outcome of a run: opening the log file and the metric reads decide
    the result; a failed write only loses its line on its sink. *)
Lemma run_with_outcome (mode : Mode) :
  outcome_spec float_str env mode files (run_with float_str env mode files).
Proof.
  unfold outcome_spec, emitted. rewrite run_with_unfold. cbn zeta.
  unfold source_fault, source_ops. cbn [first_fault op_fault].
  set (lf := log_filename (clock env 0%nat)).
  set (base := opened_content mode files lf).
  destruct (open_fault env lf); [reflexivity|].
  unfold generate_report.
  rewrite bind_eval. cbn [datetime_now clock_reads stderr fs records].
  emit. emit.
  metric (cpu_percent env).
  metric (virtual_memory_percent env).
  metric (disk_usage_percent env "C:\").
  rewrite !grade_spec_correct, overall_grade_spec.
  emit. emit. emit. emit. emit. emit. emit. emit.
  rewrite bind_eval; unfold lift.
  emit. emit. emit.
  unfold full_report.
  repeat match goal with H : _ = inr _ |- _ => rewrite H end.
  reflexivity.
Qed.

Lemma run_outcome : outcome_spec float_str env mode_w files (run float_str env files).
Proof. exact (run_with_outcome mode_w). Qed.

End Run.

(** ** Consequences for whole runs *)

Lemma first_fault_In env lf ops o e :
  first_fault env lf ops = Some (o, e) -> In o ops /\ op_fault env lf o = Some e.
Proof.
  induction ops as [|o' ops IH]; simpl; [discriminate|].
  destruct (op_fault env lf o') eqn:E.
  - intros [= <- <-]. auto.
  - intros H. destruct (IH H). auto.
Qed.

Lemma first_fault_None env lf ops :
  first_fault env lf ops = None <->
  (forall o, In o ops -> op_fault env lf o = None).
Proof.
  induction ops as [|o' ops IH]; simpl.
  - split; [intros _ o []|reflexivity].
  - destruct (op_fault env lf o') eqn:E.
    + split; [discriminate|]. intros H. rewrite (H o') in E by auto. discriminate.
    + rewrite IH. split.
      * intros H o [<-|Hin]; auto.
      * intros H o Hin. apply H. auto.
Qed.

Lemma clean_no_fault env cpu mem disk :
  runs_clean env cpu mem disk -> run_fault env = None.
Proof.
  intros (Hc & Hm & Hd & Ho & Hw).
  unfold run_fault, run_ops.
  cbn [first_fault op_fault emit_ops app concat map seq
       List.app List.map List.concat List.seq].
  rewrite Ho, Hc, Hm, Hd, !Hw. reflexivity.
Qed.

Lemma full_report_clean float_str env cpu mem disk :
  runs_clean env cpu mem disk ->
  full_report float_str env
  = stamp_lines env
      (report_body_spec (strftime "%Y-%m-%d %H:%M:%S" (clock env 1%nat))
         (float_str cpu) (float_str mem) (float_str disk)
         (grade_spec cpu 30 60) (grade_spec mem 50 75) (grade_spec disk 40 70)
         (aggregate_spec (grade_spec cpu 30 60) (grade_spec mem 50 75)
            (grade_spec disk 40 70))).
Proof.
  intros (Hc & Hm & Hd & _). unfold full_report. rewrite Hc, Hm, Hd. reflexivity.
Qed.

(** When none of the operations of a run fails, the sources work and so do
    the twenty-six writes. *)
Lemma run_fault_None env :
  run_fault env = None ->
  source_fault env = None /\
  (forall i, (i < 13)%nat -> write_fault env i Stderr = None) /\
  (forall i, (i < 13)%nat ->
             write_fault env i (File (log_filename (clock env 0%nat))) = None).
Proof.
  unfold run_fault, source_fault. rewrite !first_fault_None. intros H.
  split; [|split].
  - intros o Hin. apply H. unfold source_ops in Hin. unfold run_ops. simpl in *.
    destruct Hin as [<-|[<-|[<-|[<-|[]]]]]; tauto.
  - intros i Hi. apply (H (OpWrite i Stderr)). unfold run_ops. simpl.
    do 13 (destruct i as [|i]; [tauto|]). lia.
  - intros i Hi.
    apply (H (OpWrite i (File (log_filename (clock env 0%nat))))).
    unfold run_ops. simpl.
    do 13 (destruct i as [|i]; [tauto|]). lia.
Qed.

(** A run in which no operation fails. *)
Lemma run_with_no_fault float_str env files mode :
  run_fault env = None ->
  run_with float_str env mode files
  = (inr tt,
     mkWorld (full_report float_str env)
       (<[log_filename (clock env 0%nat) :=
            opened_content mode files (log_filename (clock env 0%nat))
            ++ full_report float_str env]> files)
       15 13).
Proof.
  intros H. destruct (run_fault_None env H) as (Hs & He & Hf).
  pose proof (run_with_outcome float_str env files mode) as R.
  unfold outcome_spec, emitted in R. rewrite Hs in R. rewrite R.
  rewrite !kept_onto_all; [reflexivity| |].
  - intros i Hi. apply Hf. exact Hi.
  - intros i Hi. apply He. exact Hi.
Qed.

(** A run in which nothing fails. *)
Lemma run_clean float_str env files cpu mem disk :
  runs_clean env cpu mem disk ->
  run float_str env files
  = (inr tt,
     mkWorld (full_report float_str env)
       (<[log_filename (clock env 0%nat) := full_report float_str env]> files)
       15 13).
Proof.
  intros H.
  exact (run_with_no_fault float_str env files mode_w (clean_no_fault _ _ _ _ H)).
Qed.

(** The result of a run is the exception of the first source that fails, if
    there is one; failed writes do not change it. *)
Lemma run_result float_str env files :
  fst (run float_str env files)
  = match source_fault env with
    | None => inr tt
    | Some (_, e) => inl e
    end.
Proof.
  pose proof (run_outcome float_str env files) as R. unfold outcome_spec in R.
  destruct (source_fault env) as [[o e]|]; [destruct o|]; now rewrite R.
Qed.

(** Opened for appending instead, the file would keep what it held. *)
Lemma run_append_clean float_str env files cpu mem disk :
  runs_clean env cpu mem disk ->
  fs (snd (run_with float_str env mode_a files))
  = <[log_filename (clock env 0%nat) :=
        default [] (files !! log_filename (clock env 0%nat))
        ++ full_report float_str env]> files.
Proof.
  intros H.
  rewrite (run_with_no_fault float_str env files mode_a (clean_no_fault _ _ _ _ H)).
  reflexivity.
Qed.

(** The files a run leaves: untouched when the log file cannot be opened,
    otherwise only the log file is replaced. *)
Lemma run_files float_str env files :
  fs (snd (run float_str env files)) = files \/
  exists ls, fs (snd (run float_str env files))
             = <[log_filename (clock env 0%nat) := ls]> files.
Proof.
  pose proof (run_outcome float_str env files) as R. unfold outcome_spec in R.
  destruct (source_fault env) as [[o e]|]; [destruct o|]; rewrite R; eauto.
Qed.

(** C1: [grade] returns "A" below [low], "B" from [low] up to but excluding
    [high], and "C" from [high] on; a value equal to [low] is graded "B" and
    a value equal to [high] is graded "C".  In a run where nothing fails,
    the three grade lines of the report are [grade] applied to the CPU
    reading with (30, 60), to the memory reading with (50, 75) and to the
    disk reading with (40, 70). *)
Theorem grade_thresholds (float_str : Q -> string) (env : Env)
    (files : gmap string (list string)) (value low high cpu mem disk : Q) :
  (low < high)%Q ->
  runs_clean env cpu mem disk ->
  grade value (low, high)
  = (if Qlt_le_dec value low then "A"
     else if Qlt_le_dec value high then "B" else "C")%string /\
  ((value < low)%Q -> grade value (low, high) = "A"%string) /\
  ((low <= value)%Q -> (value < high)%Q -> grade value (low, high) = "B"%string) /\
  ((high <= value)%Q -> grade value (low, high) = "C"%string) /\
  grade low (low, high) = "B"%string /\
  grade high (low, high) = "C"%string /\
  stderr (snd (run float_str env files)) !! 7%nat
  = Some (log_line_spec (asctime (clock env 9%nat)) "INFO"
            ("CPU Grade: " ++ grade cpu (30%Q, 60%Q))) /\
  stderr (snd (run float_str env files)) !! 8%nat
  = Some (log_line_spec (asctime (clock env 10%nat)) "INFO"
            ("Memory Grade: " ++ grade mem (50%Q, 75%Q))) /\
  stderr (snd (run float_str env files)) !! 9%nat
  = Some (log_line_spec (asctime (clock env 11%nat)) "INFO"
            ("Disk Grade: " ++ grade disk (40%Q, 70%Q))).
Proof.
  intros Hlh Hclean.
  split.
  { rewrite grade_spec_correct. unfold grade_spec.
    destruct (Qlt_le_dec value low); [reflexivity|].
    destruct (Qlt_le_dec value high); reflexivity. }
  split; [apply grade_A|]. split; [apply grade_B|].
  split; [intros H; apply grade_C; lra|].
  split; [apply grade_B; lra|]. split; [apply grade_C; lra|].
  rewrite (run_clean _ _ _ _ _ _ Hclean), (full_report_clean _ _ _ _ _ Hclean).
  rewrite !grade_spec_correct. cbn [snd stderr].
  repeat split; reflexivity.
Qed.

Lemma grade_thresholds_witness :
  (30 < 60)%Q /\
  runs_clean Examples.env_ok (295 # 10) 50 (812 # 10) /\
  grade 30 (30%Q, 60%Q) = "B"%string /\
  stderr (snd (run Examples.float_str Examples.env_ok ∅)) !! 9%nat
  = Some (log_line_spec (asctime (clock Examples.env_ok 11%nat)) "INFO"
            ("Disk Grade: " ++ grade (812 # 10) (40%Q, 70%Q))).
Proof.
  assert (H1 : (30 < 60)%Q) by reflexivity.
  assert (H2 : runs_clean Examples.env_ok (295 # 10) 50 (812 # 10))
    by (repeat split; reflexivity).
  pose proof (grade_thresholds Examples.float_str Examples.env_ok ∅
                30 30 60 (295 # 10) 50 (812 # 10) H1 H2) as T.
  split; [exact H1|]. split; [exact H2|].
  split; [apply T|apply T].
Defined.

(** C10: in a run where nothing fails the report is exactly the thirteen
    messages of the report body, in order (header, generation time, the
    metrics header and three percentages, the grades header and three
    grades, the overall header, the final grade, the footer); each is
    written to the terminal and to the log file as a line
    [<timestamp> - INFO - <message>]. *)
Theorem report_thirteen_lines (float_str : Q -> string) (env : Env)
    (files : gmap string (list string)) (cpu mem disk : Q) :
  runs_clean env cpu mem disk ->
  let body :=
    report_body_spec (strftime "%Y-%m-%d %H:%M:%S" (clock env 1%nat))
      (float_str cpu) (float_str mem) (float_str disk)
      (grade_spec cpu 30 60) (grade_spec mem 50 75) (grade_spec disk 40 70)
      (aggregate_spec (grade_spec cpu 30 60) (grade_spec mem 50 75)
         (grade_spec disk 40 70)) in
  fst (run float_str env files) = inr tt /\
  length body = 13%nat /\
  length (stderr (snd (run float_str env files))) = 13%nat /\
  stderr (snd (run float_str env files)) = stamp_lines env body /\
  fs (snd (run float_str env files)) !! log_filename (clock env 0%nat)
  = Some (stamp_lines env body) /\
  (forall (i : nat) (msg : string),
      body !! i = Some msg ->
      stderr (snd (run float_str env files)) !! i
      = Some (asctime (clock env (2 + i)%nat) ++ " - INFO - " ++ msg)%string).
Proof.
  intros Hclean body.
  rewrite (run_clean _ _ _ _ _ _ Hclean), (full_report_clean _ _ _ _ _ Hclean).
  fold body. cbn [fst snd stderr fs].
  split; [reflexivity|]. split; [reflexivity|]. split; [reflexivity|].
  split; [reflexivity|]. split; [apply lookup_insert_eq|].
  intros i msg Hi. unfold stamp_lines. rewrite list_lookup_imap, Hi. reflexivity.
Qed.

Lemma report_thirteen_lines_witness :
  runs_clean Examples.env_ok (295 # 10) 50 (812 # 10) /\
  fst (run Examples.float_str Examples.env_ok ∅) = inr tt /\
  length (stderr (snd (run Examples.float_str Examples.env_ok ∅))) = 13%nat.
Proof.
  assert (H : runs_clean Examples.env_ok (295 # 10) 50 (812 # 10))
    by (repeat split; reflexivity).
  pose proof (report_thirteen_lines Examples.float_str Examples.env_ok ∅ _ _ _ H) as T.
  split; [exact H|]. split; [apply T|apply T].
Defined.




(** C8: the log file is opened for writing under a name of daily
    resolution.  When the script runs twice on the same calendar date and
    the second run completes, both runs use the same file, the file ends up
    holding exactly the thirteen lines of the second run, and the files are
    as if the first run had never happened; opened for appending, the file
    would hold the lines of both runs. *)
Theorem rerun_overwrites (float_str : Q -> string) (env1 env2 : Env)
    (files : gmap string (list string)) (cpu mem disk : Q) :
  same_date (clock env1 0%nat) (clock env2 0%nat) ->
  runs_clean env2 cpu mem disk ->
  let files1 := fs (snd (run float_str env1 files)) in
  let files2 := fs (snd (run float_str env2 files1)) in
  log_filename (clock env1 0%nat) = log_filename (clock env2 0%nat) /\
  (run_fault env1 = None ->
   files1 !! log_filename (clock env1 0%nat) = Some (full_report float_str env1)) /\
  files2 !! log_filename (clock env2 0%nat) = Some (full_report float_str env2) /\
  length (full_report float_str env2) = 13%nat /\
  files2 = fs (snd (run float_str env2 files)) /\
  (run_fault env1 = None ->
   fs (snd (run_with float_str env2 mode_a files1)) !! log_filename (clock env2 0%nat)
   = Some (full_report float_str env1 ++ full_report float_str env2)).
Proof.
  intros Hdate Hclean files1 files2.
  pose proof (log_filename_same_date _ _ Hdate) as Hname.
  assert (H1 : run_fault env1 = None ->
               files1 = <[log_filename (clock env2 0%nat) :=
                            full_report float_str env1]> files).
  { intros Hok. unfold files1.
    change (run float_str env1 files) with (run_with float_str env1 mode_w files).
    rewrite (run_with_no_fault float_str env1 files mode_w Hok), Hname.
    reflexivity. }
  split; [exact Hname|].
  split; [intros Hok; rewrite (H1 Hok), Hname; apply lookup_insert_eq|].
  unfold files2. rewrite !(run_clean _ _ _ _ _ _ Hclean). cbn [snd fs].
  split; [apply lookup_insert_eq|]. split; [reflexivity|].
  split.
  - unfold files1. destruct (run_files float_str env1 files) as [->|[ls ->]].
    + reflexivity.
    + rewrite Hname. apply insert_insert_eq.
  - intros Hok. rewrite (run_append_clean _ _ _ _ _ _ Hclean), (H1 Hok).
    rewrite !lookup_insert_eq. reflexivity.
Qed.

Lemma rerun_overwrites_witness :
  same_date (clock Examples.env_ok 0%nat) (clock Examples.env_later 0%nat) /\
  runs_clean Examples.env_later 10 20 30 /\
  fs (snd (run Examples.float_str Examples.env_later
             (fs (snd (run Examples.float_str Examples.env_ok ∅)))))
    !! "20260311_system_health.log"%string
  = Some (full_report Examples.float_str Examples.env_later).
Proof.
  assert (H1 : same_date (clock Examples.env_ok 0%nat) (clock Examples.env_later 0%nat))
    by (repeat split; reflexivity).
  assert (H2 : runs_clean Examples.env_later 10 20 30)
    by (repeat split; reflexivity).
  pose proof (rerun_overwrites Examples.float_str _ _ ∅ _ _ _ H1 H2) as T.
  split; [exact H1|]. split; [exact H2|]. apply T.
Defined.

(** ** The scenarios of the specification and two failing hosts *)

Example scenario_all_A :
  grade 20 (30%Q, 60%Q) = "A"%string /\ grade 40 (50%Q, 75%Q) = "A"%string /\
  grade 30 (40%Q, 70%Q) = "A"%string /\ overall_grade "A" "A" "A" = inr "A"%string.
Proof. repeat split; vm_compute; reflexivity. Qed.

Example scenario_all_B :
  grade 45 (30%Q, 60%Q) = "B"%string /\ grade 60 (50%Q, 75%Q) = "B"%string /\
  grade 50 (40%Q, 70%Q) = "B"%string /\ overall_grade "B" "B" "B" = inr "B"%string.
Proof. repeat split; vm_compute; reflexivity. Qed.

Example scenario_all_C :
  grade 80 (30%Q, 60%Q) = "C"%string /\ grade 90 (50%Q, 75%Q) = "C"%string /\
  grade 85 (40%Q, 70%Q) = "C"%string /\ overall_grade "C" "C" "C" = inr "C"%string.
Proof. repeat split; vm_compute; reflexivity. Qed.

Example scenario_boundaries :
  grade 30 (30%Q, 60%Q) = "B"%string /\ grade 60 (30%Q, 60%Q) = "C"%string /\
  grade (299 # 10) (30%Q, 60%Q) = "A"%string /\
  grade (499 # 10) (50%Q, 75%Q) = "A"%string /\
  grade (399 # 10) (40%Q, 70%Q) = "A"%string.
Proof. repeat split; reflexivity. Qed.

Example unknown_grade_raises :
  overall_grade "A" "D" "E" = inl (KeyError "D").
Proof. vm_compute. reflexivity. Qed.

Example run_ok_first_lines :
  take 2 (stderr (snd (run Examples.float_str Examples.env_ok ∅)))
  = [ "2026-11-03 13:30:02,246 - INFO - ===== System Health Report =====";
      "2026-11-03 13:30:03,370 - INFO - Report generated on: 2026-11-03 13:30:01"
    ]%string /\
  stderr (snd (run Examples.float_str Examples.env_ok ∅)) !! 11%nat
  = Some "2026-11-03 13:30:13,604 - INFO - Final Grade: B"%string.
Proof. split; vm_compute; reflexivity. Qed.


(** * Further properties *)

(** ** The grade pipeline *)

Lemma grade_spec_A (value low high : Q) :
  grade_spec value low high = A <-> (value < low)%Q.
Proof.
  unfold grade_spec. destruct (Qlt_le_dec value low); [tauto|].
  destruct (Qlt_le_dec value high); split; (discriminate || lra).
Qed.

Lemma grade_spec_C (value low high : Q) :
  grade_spec value low high = C <-> (low <= value)%Q /\ (high <= value)%Q.
Proof.
  unfold grade_spec. destruct (Qlt_le_dec value low).
  - split; [discriminate|lra].
  - destruct (Qlt_le_dec value high); split; (discriminate || lra || tauto).
Qed.

Lemma grade_spec_antitone (value value' low high : Q) :
  (value <= value')%Q ->
  score (grade_spec value' low high) <= score (grade_spec value low high).
Proof.
  intros H. unfold grade_spec.
  destruct (Qlt_le_dec value low), (Qlt_le_dec value' low),
    (Qlt_le_dec value high), (Qlt_le_dec value' high); simpl; try lia; lra.
Qed.

Lemma final_grade_spec (cpu mem disk : Q) :
  final_grade cpu mem disk
  = inr (letter (aggregate_spec (grade_spec cpu 30 60) (grade_spec mem 50 75)
                   (grade_spec disk 40 70))).
Proof. unfold final_grade. rewrite !grade_spec_correct. apply overall_grade_spec. Qed.

Lemma letter_eq (g h : Grade) : letter g = letter h <-> g = h.
Proof. split; [destruct g, h; simpl; congruence|congruence]. Qed.

Lemma aggregate_spec_A (g1 g2 g3 : Grade) :
  aggregate_spec g1 g2 g3 = A <-> g1 = A /\ g2 = A /\ g3 = A.
Proof.
  destruct g1, g2, g3; vm_compute; split;
    (congruence || (intros (? & ? & ?); congruence) || auto).
Qed.

Lemma aggregate_spec_bounds (g1 g2 g3 : Grade) :
  Z.min (score g1) (Z.min (score g2) (score g3))
  <= score (aggregate_spec g1 g2 g3)
  <= Z.max (score g1) (Z.max (score g2) (score g3)).
Proof. destruct g1, g2, g3; vm_compute; split; discriminate. Qed.

Lemma aggregate_spec_monotone (g1 g2 g3 h1 h2 h3 : Grade) :
  score h1 <= score g1 -> score h2 <= score g2 -> score h3 <= score g3 ->
  score (aggregate_spec h1 h2 h3) <= score (aggregate_spec g1 g2 g3).
Proof.
  destruct g1, g2, g3, h1, h2, h3; simpl score; intros H1 H2 H3;
    try lia; vm_compute; discriminate.
Qed.

(** X1: whatever the readings, the three grades are keys of
    [grade_mapping], so the aggregation block of [generate_report] raises no
    [KeyError] and yields one of the three letters. *)
Theorem final_grade_never_raises (cpu_usage mem_usage disk_usage : Q) :
  (exists s1 s2 s3,
      grade_mapping !! grade cpu_usage (30%Q, 60%Q) = Some s1 /\
      grade_mapping !! grade mem_usage (50%Q, 75%Q) = Some s2 /\
      grade_mapping !! grade disk_usage (40%Q, 70%Q) = Some s3) /\
  (forall e, final_grade cpu_usage mem_usage disk_usage <> inl e) /\
  (final_grade cpu_usage mem_usage disk_usage = inr "A"%string \/
   final_grade cpu_usage mem_usage disk_usage = inr "B"%string \/
   final_grade cpu_usage mem_usage disk_usage = inr "C"%string).
Proof.
  split.
  { rewrite !grade_spec_correct, !score_lookup. eauto 10. }
  rewrite final_grade_spec.
  split; [discriminate|].
  destruct (aggregate_spec _ _ _); simpl; auto.
Qed.

(** X2: the final grade is "A" exactly when every reading is below its low
    threshold: CPU below 30, memory below 50 and disk below 40. *)
Theorem final_grade_A_iff (cpu_usage mem_usage disk_usage : Q) :
  final_grade cpu_usage mem_usage disk_usage = inr "A"%string
  <-> (cpu_usage < 30)%Q /\ (mem_usage < 50)%Q /\ (disk_usage < 40)%Q.
Proof.
  rewrite final_grade_spec.
  change (inr "A"%string) with (@inr Exn string (letter A)).
  split.
  - intros H. injection H as H. apply (proj1 (letter_eq _ A)) in H.
    apply aggregate_spec_A in H. rewrite !grade_spec_A in H. exact H.
  - intros H. f_equal. apply (proj2 (letter_eq _ A)), aggregate_spec_A.
    rewrite !grade_spec_A. exact H.
Qed.

(** X3: the final grade never improves when the readings grow: if no
    reading decreases, the new final grade is at most as good as the old
    one. *)
Theorem final_grade_monotone (cpu mem disk cpu' mem' disk' : Q) :
  (cpu <= cpu')%Q -> (mem <= mem')%Q -> (disk <= disk')%Q ->
  exists s s',
    final_grade cpu mem disk = inr s /\
    final_grade cpu' mem' disk' = inr s' /\
    grade_ge s s'.
Proof.
  intros Hc Hm Hd. rewrite !final_grade_spec.
  eexists; eexists. split; [reflexivity|]. split; [reflexivity|].
  apply grade_ge_letter, aggregate_spec_monotone; now apply grade_spec_antitone.
Qed.

Lemma final_grade_monotone_witness :
  (20 <= 45)%Q /\ (40 <= 40)%Q /\ (30 <= 85)%Q /\
  exists s s',
    final_grade 20 40 30 = inr s /\ final_grade 45 40 85 = inr s' /\
    grade_ge s s'.
Proof.
  assert (H1 : (20 <= 45)%Q) by (vm_compute; discriminate).
  assert (H2 : (40 <= 40)%Q) by (vm_compute; discriminate).
  assert (H3 : (30 <= 85)%Q) by (vm_compute; discriminate).
  split; [exact H1|]. split; [exact H2|]. split; [exact H3|].
  exact (final_grade_monotone 20 40 30 45 40 85 H1 H2 H3).
Defined.

(** X4: the overall grade lies between the worst and the best of the three
    metric grades, and three equal grades give that grade. *)
Theorem overall_between_worst_and_best (g1 g2 g3 : Grade) :
  exists g,
    overall_grade (letter g1) (letter g2) (letter g3) = inr (letter g) /\
    Z.min (score g1) (Z.min (score g2) (score g3)) <= score g /\
    score g <= Z.max (score g1) (Z.max (score g2) (score g3)) /\
    overall_grade (letter g1) (letter g1) (letter g1) = inr (letter g1).
Proof.
  exists (aggregate_spec g1 g2 g3).
  split; [apply overall_grade_spec|].
  split; [apply aggregate_spec_bounds|]. split; [apply aggregate_spec_bounds|].
  rewrite overall_grade_spec. destruct g1; reflexivity.
Qed.

(** X5: the overall grade is monotone in each metric grade: when no metric
    grade gets worse, the overall grade does not get worse. *)
Theorem overall_grade_monotone (g1 g2 g3 h1 h2 h3 : Grade) :
  grade_ge (letter g1) (letter h1) ->
  grade_ge (letter g2) (letter h2) ->
  grade_ge (letter g3) (letter h3) ->
  exists s s',
    overall_grade (letter g1) (letter g2) (letter g3) = inr s /\
    overall_grade (letter h1) (letter h2) (letter h3) = inr s' /\
    grade_ge s s'.
Proof.
  rewrite !grade_ge_letter. intros H1 H2 H3. rewrite !overall_grade_spec.
  eexists; eexists. split; [reflexivity|]. split; [reflexivity|].
  now apply grade_ge_letter, aggregate_spec_monotone.
Qed.

Lemma overall_grade_monotone_witness :
  grade_ge (letter A) (letter B) /\ grade_ge (letter A) (letter A) /\
  exists s s',
    overall_grade (letter A) (letter A) (letter A) = inr s /\
    overall_grade (letter B) (letter A) (letter A) = inr s' /\
    grade_ge s s'.
Proof.
  assert (H1 : grade_ge (letter A) (letter B)) by (vm_compute; discriminate).
  assert (H2 : grade_ge (letter A) (letter A)) by (vm_compute; discriminate).
  split; [exact H1|]. split; [exact H2|].
  exact (overall_grade_monotone A A A B A A H1 H2 H2).
Defined.

(** X6: with thresholds that leave no room between them ([high <= low]) the
    middle grade is never given: [grade] returns "A" below [low] and "C"
    from [low] on. *)
Theorem grade_degenerate (value low high : Q) :
  (high <= low)%Q ->
  grade value (low, high) <> "B"%string /\
  ((value < low)%Q -> grade value (low, high) = "A"%string) /\
  ((low <= value)%Q -> grade value (low, high) = "C"%string).
Proof.
  intros H. rewrite grade_spec_correct. unfold grade_spec.
  destruct (Qlt_le_dec value low); [|destruct (Qlt_le_dec value high)];
    simpl; repeat split; try discriminate; intros; (reflexivity || lra).
Qed.

Lemma grade_degenerate_witness :
  (50 <= 50)%Q /\ grade 50 (50%Q, 50%Q) = "C"%string.
Proof.
  assert (H : (50 <= 50)%Q) by (vm_compute; discriminate).
  split; [exact H|].
  apply (grade_degenerate 50 50 50 H). vm_compute; discriminate.
Defined.

(** The final grade line of a run in which nothing fails carries
    [final_grade] of the three readings. *)
Lemma final_grade_reported float_str env files cpu mem disk :
  runs_clean env cpu mem disk ->
  exists s,
    final_grade cpu mem disk = inr s /\
    stderr (snd (run float_str env files)) !! 11%nat
    = Some (log_line_spec (asctime (clock env 13%nat)) "INFO" ("Final Grade: " ++ s)).
Proof.
  intros H. eexists. split; [apply final_grade_spec|].
  rewrite (run_clean _ _ _ _ _ _ H), (full_report_clean _ _ _ _ _ H).
  reflexivity.
Qed.

Lemma aggregate_spec_C (g1 g2 g3 : Grade) :
  aggregate_spec g1 g2 g3 = C -> g1 = C \/ g2 = C \/ g3 = C.
Proof. destruct g1, g2, g3; vm_compute; (discriminate || auto). Qed.

Lemma aggregate_spec_CCC : aggregate_spec C C C = C.
Proof. vm_compute. reflexivity. Qed.

(** X17: a final grade "C" needs at least one reading at or above its high
    threshold (CPU 60, memory 75, disk 70), and is given whenever all three
    readings are. *)
Theorem final_grade_C_bounds (cpu_usage mem_usage disk_usage : Q) :
  (final_grade cpu_usage mem_usage disk_usage = inr "C"%string ->
   (60 <= cpu_usage)%Q \/ (75 <= mem_usage)%Q \/ (70 <= disk_usage)%Q) /\
  ((60 <= cpu_usage)%Q -> (75 <= mem_usage)%Q -> (70 <= disk_usage)%Q ->
   final_grade cpu_usage mem_usage disk_usage = inr "C"%string).
Proof.
  rewrite final_grade_spec. split.
  - intros H. injection H as H. apply (proj1 (letter_eq _ C)) in H.
    apply aggregate_spec_C in H. rewrite !grade_spec_C in H.
    destruct H as [H|[H|H]]; tauto.
  - intros H1 H2 H3.
    assert (E1 : grade_spec cpu_usage 30 60 = C) by (apply grade_spec_C; lra).
    assert (E2 : grade_spec mem_usage 50 75 = C) by (apply grade_spec_C; lra).
    assert (E3 : grade_spec disk_usage 40 70 = C) by (apply grade_spec_C; lra).
    rewrite E1, E2, E3, aggregate_spec_CCC. reflexivity.
Qed.

Lemma final_grade_C_bounds_witness :
  (60 <= 80)%Q /\ (75 <= 90)%Q /\ (70 <= 85)%Q /\
  final_grade 80 90 85 = inr "C"%string.
Proof.
  assert (H1 : (60 <= 80)%Q) by (vm_compute; discriminate).
  assert (H2 : (75 <= 90)%Q) by (vm_compute; discriminate).
  assert (H3 : (70 <= 85)%Q) by (vm_compute; discriminate).
  split; [exact H1|]. split; [exact H2|]. split; [exact H3|].
  exact (proj2 (final_grade_C_bounds 80 90 85) H1 H2 H3).
Defined.

(** ** File names and timestamps *)

Lemma log_filename_fields (t : datetime) :
  valid_datetime t ->
  int_of_string (substring 0 4 (log_filename t)) = Some (year t) /\
  int_of_string (substring 4 2 (log_filename t)) = Some (day t) /\
  int_of_string (substring 6 2 (log_filename t)) = Some (month t).
Proof.
  intros (Hy & Hm & Hd & _). rewrite log_filename_chars.
  cbn [zdigits String.append substring].
  split; [apply (int_of_string_zdigits 4); simpl; lia|].
  split; apply (int_of_string_zdigits 2); simpl; lia.
Qed.

Lemma log_filename_inj (t1 t2 : datetime) :
  valid_datetime t1 -> valid_datetime t2 ->
  log_filename t1 = log_filename t2 -> same_date t1 t2.
Proof.
  intros H1 H2 E.
  destruct (log_filename_fields t1 H1) as (Y1 & D1 & M1).
  destruct (log_filename_fields t2 H2) as (Y2 & D2 & M2).
  rewrite E in Y1, D1, M1. unfold same_date.
  repeat split; congruence.
Qed.

(** X7: the log file name has exactly daily resolution: two clock readings
    give the same name if and only if they fall on the same calendar date,
    whatever the time of day. *)
Theorem log_filename_daily (t1 t2 : datetime) :
  valid_datetime t1 -> valid_datetime t2 ->
  (log_filename t1 = log_filename t2 <-> same_date t1 t2).
Proof.
  intros H1 H2. split; [now apply log_filename_inj|apply log_filename_same_date].
Qed.

Lemma log_filename_daily_witness :
  valid_datetime (Examples.clock_on 3 0) /\
  valid_datetime (Examples.clock_on 3 8) /\
  (log_filename (Examples.clock_on 3 0) = log_filename (Examples.clock_on 3 8)
   <-> same_date (Examples.clock_on 3 0) (Examples.clock_on 3 8)).
Proof.
  assert (H1 : valid_datetime (Examples.clock_on 3 0))
    by (vm_compute; intuition discriminate).
  assert (H2 : valid_datetime (Examples.clock_on 3 8))
    by (vm_compute; intuition discriminate).
  split; [exact H1|]. split; [exact H2|].
  exact (log_filename_daily _ _ H1 H2).
Defined.

(** X8: the generation time printed in the report is nineteen characters,
    [YYYY-MM-DD HH:MM:SS]; its six digit groups read back as the year,
    month, day, hour, minute and second of the clock reading. *)
Theorem generated_timestamp_fields (now : datetime) :
  valid_datetime now ->
  String.length (strftime "%Y-%m-%d %H:%M:%S" now) = 19%nat /\
  int_of_string (substring 0 4 (strftime "%Y-%m-%d %H:%M:%S" now)) = Some (year now) /\
  substring 4 1 (strftime "%Y-%m-%d %H:%M:%S" now) = "-"%string /\
  int_of_string (substring 5 2 (strftime "%Y-%m-%d %H:%M:%S" now)) = Some (month now) /\
  substring 7 1 (strftime "%Y-%m-%d %H:%M:%S" now) = "-"%string /\
  int_of_string (substring 8 2 (strftime "%Y-%m-%d %H:%M:%S" now)) = Some (day now) /\
  substring 10 1 (strftime "%Y-%m-%d %H:%M:%S" now) = " "%string /\
  int_of_string (substring 11 2 (strftime "%Y-%m-%d %H:%M:%S" now)) = Some (hour now) /\
  substring 13 1 (strftime "%Y-%m-%d %H:%M:%S" now) = ":"%string /\
  int_of_string (substring 14 2 (strftime "%Y-%m-%d %H:%M:%S" now)) = Some (minute now) /\
  substring 16 1 (strftime "%Y-%m-%d %H:%M:%S" now) = ":"%string /\
  int_of_string (substring 17 2 (strftime "%Y-%m-%d %H:%M:%S" now)) = Some (second now).
Proof.
  intros (Hy & Hm & Hd & Hh & Hmi & Hs & _).
  assert (E : strftime "%Y-%m-%d %H:%M:%S" now
              = (zdigits 4 (year now) ++ "-" ++ zdigits 2 (month now) ++ "-"
                 ++ zdigits 2 (day now) ++ " " ++ zdigits 2 (hour now) ++ ":"
                 ++ zdigits 2 (minute now) ++ ":" ++ zdigits 2 (second now))%string)
    by reflexivity.
  rewrite E. clear E.
  cbn [zdigits String.append substring String.length].
  split; [reflexivity|].
  split; [apply (int_of_string_zdigits 4); simpl; lia|]. split; [reflexivity|].
  split; [apply (int_of_string_zdigits 2); simpl; lia|]. split; [reflexivity|].
  split; [apply (int_of_string_zdigits 2); simpl; lia|]. split; [reflexivity|].
  split; [apply (int_of_string_zdigits 2); simpl; lia|]. split; [reflexivity|].
  split; [apply (int_of_string_zdigits 2); simpl; lia|]. split; [reflexivity|].
  apply (int_of_string_zdigits 2); simpl; lia.
Qed.

Lemma generated_timestamp_fields_witness :
  valid_datetime (Examples.clock_on 3 1) /\
  strftime "%Y-%m-%d %H:%M:%S" (Examples.clock_on 3 1) = "2026-11-03 13:30:01"%string /\
  int_of_string (substring 5 2 (strftime "%Y-%m-%d %H:%M:%S" (Examples.clock_on 3 1)))
  = Some 11.
Proof.
  assert (H : valid_datetime (Examples.clock_on 3 1))
    by (vm_compute; intuition discriminate).
  split; [exact H|]. split; [reflexivity|].
  exact (proj1 (proj2 (proj2 (proj2 (generated_timestamp_fields _ H))))).
Defined.

(** ** Whole runs *)

(** The files after a run that opened the log file: the log file holds
    the lines of this run whose write worked, whatever it held before. *)
Lemma run_opened float_str env files :
  open_fault env (log_filename (clock env 0%nat)) = None ->
  fs (snd (run float_str env files))
  = <[log_filename (clock env 0%nat) :=
        kept_onto env (File (log_filename (clock env 0%nat))) [] 0
          (emitted float_str env)]> files.
Proof.
  intros Hopen. pose proof (run_outcome float_str env files) as R.
  unfold outcome_spec in R. unfold emitted in *.
  destruct (source_fault env) as [[o e]|] eqn:E.
  - unfold source_fault in E. apply first_fault_In in E. destruct E as [Hin Hop].
    destruct o; rewrite R; try reflexivity.
    simpl in Hop. congruence.
  - rewrite R. reflexivity.
Qed.

(** X9: a run ends without an exception exactly when the log file opens
    and the three metric reads succeed, whether or not writes to the sinks
    fail; any exception a run ends with was raised by opening the log file
    or by a metric read, so neither the script itself nor a failed write
    ends a run. *)
Theorem run_succeeds_iff (float_str : Q -> string) (env : Env)
    (files : gmap string (list string)) :
  (fst (run float_str env files) = inr tt <-> source_fault env = None) /\
  (forall e, fst (run float_str env files) = inl e ->
             exists o, In o source_ops /\
                       op_fault env (log_filename (clock env 0%nat)) o = Some e).
Proof.
  rewrite run_result. destruct (source_fault env) as [[o e]|] eqn:E.
  - split; [split; discriminate|].
    intros e' [= <-]. exists o.
    unfold source_fault in E. now apply first_fault_In in E.
  - split; [tauto|discriminate].
Qed.

Lemma run_succeeds_iff_witness :
  fst (run Examples.float_str Examples.env_mem_fails ∅)
  = inl (mkExn "OSError" "unavailable") /\
  exists o,
    In o source_ops /\
    op_fault Examples.env_mem_fails
      (log_filename (clock Examples.env_mem_fails 0%nat)) o
    = Some (mkExn "OSError" "unavailable").
Proof.
  assert (H : fst (run Examples.float_str Examples.env_mem_fails ∅)
              = inl (mkExn "OSError" "unavailable")) by (vm_compute; reflexivity).
  split; [exact H|].
  exact (proj2 (run_succeeds_iff Examples.float_str Examples.env_mem_fails ∅) _ H).
Defined.

(** X10: a run changes no file other than its log file. *)
Theorem run_other_files_untouched (float_str : Q -> string) (env : Env)
    (files : gmap string (list string)) (path : string) :
  path <> log_filename (clock env 0%nat) ->
  fs (snd (run float_str env files)) !! path = files !! path.
Proof.
  intros Hne. destruct (run_files float_str env files) as [->|[ls ->]].
  - reflexivity.
  - now rewrite lookup_insert_ne.
Qed.

Lemma run_other_files_untouched_witness :
  "notes.txt"%string <> log_filename (clock Examples.env_ok 0%nat) /\
  fs (snd (run Examples.float_str Examples.env_ok (<["notes.txt"%string := ["x"%string]]> ∅)))
    !! "notes.txt"%string
  = (<["notes.txt"%string := ["x"%string]]> ∅ : gmap string (list string)) !! "notes.txt"%string.
Proof.
  assert (H : "notes.txt"%string <> log_filename (clock Examples.env_ok 0%nat))
    by (vm_compute; discriminate).
  split; [exact H|].
  exact (run_other_files_untouched Examples.float_str Examples.env_ok _ _ H).
Defined.



(** X12: a second run on the same date that gets to open the log file,
    even one that aborts later, leaves the files exactly as if the first
    run had not happened. *)
Theorem rerun_erases_first (float_str : Q -> string) (env1 env2 : Env)
    (files : gmap string (list string)) :
  same_date (clock env1 0%nat) (clock env2 0%nat) ->
  open_fault env2 (log_filename (clock env2 0%nat)) = None ->
  fs (snd (run float_str env2 (fs (snd (run float_str env1 files)))))
  = fs (snd (run float_str env2 files)).
Proof.
  intros Hdate Hopen.
  pose proof (log_filename_same_date _ _ Hdate) as Hname.
  rewrite (run_opened float_str env2 files Hopen).
  rewrite (run_opened float_str env2 (fs (snd (run float_str env1 files))) Hopen).
  destruct (run_files float_str env1 files) as [->|[ls ->]].
  - reflexivity.
  - rewrite Hname. apply insert_insert_eq.
Qed.

Lemma rerun_erases_first_witness :
  same_date (clock Examples.env_ok 0%nat) (clock Examples.env_mem_fails 0%nat) /\
  open_fault Examples.env_mem_fails
    (log_filename (clock Examples.env_mem_fails 0%nat)) = None /\
  fs (snd (run Examples.float_str Examples.env_mem_fails
             (fs (snd (run Examples.float_str Examples.env_ok ∅)))))
  = fs (snd (run Examples.float_str Examples.env_mem_fails ∅)).
Proof.
  assert (H1 : same_date (clock Examples.env_ok 0%nat)
                 (clock Examples.env_mem_fails 0%nat))
    by (repeat split; reflexivity).
  assert (H2 : open_fault Examples.env_mem_fails
                 (log_filename (clock Examples.env_mem_fails 0%nat)) = None)
    by reflexivity.
  split; [exact H1|]. split; [exact H2|].
  exact (rerun_erases_first Examples.float_str _ _ ∅ H1 H2).
Defined.

(** X13: a run on another calendar date leaves the earlier log file as it
    was. *)
Theorem other_day_log_kept (float_str : Q -> string) (env1 env2 : Env)
    (files : gmap string (list string)) :
  valid_datetime (clock env1 0%nat) -> valid_datetime (clock env2 0%nat) ->
  ~ same_date (clock env1 0%nat) (clock env2 0%nat) ->
  log_filename (clock env1 0%nat) <> log_filename (clock env2 0%nat) /\
  fs (snd (run float_str env2 (fs (snd (run float_str env1 files)))))
    !! log_filename (clock env1 0%nat)
  = fs (snd (run float_str env1 files)) !! log_filename (clock env1 0%nat).
Proof.
  intros H1 H2 Hdate.
  assert (Hne : log_filename (clock env1 0%nat) <> log_filename (clock env2 0%nat))
    by (intros E; apply Hdate; now apply log_filename_inj).
  split; [exact Hne|].
  destruct (run_files float_str env2 (fs (snd (run float_str env1 files))))
    as [->|[ls ->]].
  - reflexivity.
  - rewrite lookup_insert_ne by congruence. reflexivity.
Qed.

Lemma other_day_log_kept_witness :
  valid_datetime (clock Examples.env_ok 0%nat) /\
  valid_datetime (clock MoreExamples.env_next_day 0%nat) /\
  ~ same_date (clock Examples.env_ok 0%nat) (clock MoreExamples.env_next_day 0%nat) /\
  fs (snd (run Examples.float_str MoreExamples.env_next_day
             (fs (snd (run Examples.float_str Examples.env_ok ∅)))))
    !! log_filename (clock Examples.env_ok 0%nat)
  = fs (snd (run Examples.float_str Examples.env_ok ∅))
      !! log_filename (clock Examples.env_ok 0%nat).
Proof.
  assert (H1 : valid_datetime (clock Examples.env_ok 0%nat))
    by (vm_compute; intuition discriminate).
  assert (H2 : valid_datetime (clock MoreExamples.env_next_day 0%nat))
    by (vm_compute; intuition discriminate).
  assert (H3 : ~ same_date (clock Examples.env_ok 0%nat)
                   (clock MoreExamples.env_next_day 0%nat))
    by (intros (_ & _ & H); vm_compute in H; discriminate).
  split; [exact H1|]. split; [exact H2|]. split; [exact H3|].
  exact (proj2 (other_day_log_kept Examples.float_str _ _ ∅ H1 H2 H3)).
Defined.

(** ** The module body and repeated calls *)

Lemma module_body_eval env mode out files c r :
  module_body env mode (mkWorld out files c r) =
  match open_fault env (log_filename (clock env c)) with
  | Some e => (inl e, mkWorld out files (S c) r)
  | None =>
      (inr (configured_logger (log_filename (clock env c))),
       mkWorld out
         (<[log_filename (clock env c) :=
              opened_content mode files (log_filename (clock env c))]> files)
         (S c) r)
  end.
Proof.
  cbv beta iota zeta delta [module_body mbind Py_bind mret Py_ret datetime_now
    FileHandler open_file clock_reads stderr fs records].
  destruct (open_fault env (log_filename (clock env c))); [reflexivity|].
  destruct mode; reflexivity.
Qed.

(** The script is the module body followed by one call of
    [generate_report]. *)
Lemma script_module_body float_str env mode w :
  script float_str env mode w
  = (module_body env mode ≫= generate_report float_str env) w.
Proof.
  destruct w as [out files c r].
  rewrite bind_eval, module_body_eval.
  cbv beta iota zeta delta [script mbind Py_bind mret Py_ret datetime_now
    FileHandler open_file clock_reads stderr fs records].
  destruct (open_fault env (log_filename (clock env c))); [reflexivity|].
  destruct mode; reflexivity.
Qed.

Lemma append_line_first (p l : string) (m : gmap string (list string)) :
  append_line p l m = <[p := default [] (m !! p) ++ [l]]> m.
Proof. reflexivity. Qed.

Section Calls.

Variable float_str : Q -> string.
Variable env : Env.

Ltac emit_ok Hw :=
  rewrite ?bind_eval, Logger_info_eval;
  cbn [clock_reads stderr fs records]; cbn zeta;
  unfold keep1, file_write; rewrite !Hw.

(** One call of [generate_report] when the sources and the sinks work: the
    thirteen lines are added after what the terminal and the log file
    already hold. *)
Lemma generate_report_clean cpu mem disk lf out files c r :
  sources_ok env cpu mem disk ->
  generate_report float_str env (configured_logger lf) (mkWorld out files c r)
  = (inr tt,
     mkWorld (out ++ report_at float_str env c)
       (<[lf := default [] (files !! lf) ++ report_at float_str env c]> files)
       (14 + c) (13 + r)).
Proof.
  intros (Hc & Hm & Hd & Hw).
  unfold generate_report.
  rewrite bind_eval. cbn [datetime_now clock_reads stderr fs records].
  emit_ok Hw. emit_ok Hw.
  rewrite bind_eval; unfold psutil_cpu_percent, lift; rewrite Hc.
  rewrite bind_eval; unfold psutil_virtual_memory_percent, lift; rewrite Hm.
  rewrite bind_eval; unfold psutil_disk_usage_percent, lift; rewrite Hd.
  rewrite !grade_spec_correct, overall_grade_spec.
  emit_ok Hw. emit_ok Hw. emit_ok Hw. emit_ok Hw.
  emit_ok Hw. emit_ok Hw. emit_ok Hw. emit_ok Hw.
  rewrite bind_eval; unfold lift.
  emit_ok Hw. emit_ok Hw. emit_ok Hw.
  rewrite (append_line_first lf _ files), !append_line_insert.
  unfold report_at. rewrite Hc, Hm, Hd.
  rewrite <- !app_assoc. reflexivity.
Qed.

End Calls.

(** X14: importing the module, that is running the module body without
    calling [generate_report], already creates or empties the day's log
    file: afterwards the file exists and has no line, whatever it held
    before, nothing has been written to the terminal and no other file has
    changed. *)
Theorem import_truncates_log (env : Env) (w : World) :
  open_fault env (log_filename (clock env (clock_reads w))) = None ->
  exists logger w',
    module_body env mode_w w = (inr logger, w') /\
    stderr w' = stderr w /\
    fs w' !! log_filename (clock env (clock_reads w)) = Some [] /\
    (forall path, path <> log_filename (clock env (clock_reads w)) ->
                  fs w' !! path = fs w !! path) /\
    l_handlers logger
    = [mkHandler Stderr DEBUG;
       mkHandler (File (log_filename (clock env (clock_reads w)))) DEBUG].
Proof.
  intros Hopen. destruct w as [out files c r]. cbn [clock_reads] in *.
  eexists; eexists. rewrite module_body_eval, Hopen.
  split; [reflexivity|]. cbn [stderr fs opened_content].
  split; [reflexivity|]. split; [apply lookup_insert_eq|].
  split; [|reflexivity].
  intros path Hne. now rewrite lookup_insert_ne.
Qed.

Lemma import_truncates_log_witness :
  open_fault Examples.env_ok
    (log_filename (clock Examples.env_ok
                     (clock_reads (mkWorld []
                        (<["20260311_system_health.log"%string := ["old"%string]]> ∅)
                        0 0)))) = None /\
  exists logger w',
    module_body Examples.env_ok mode_w
      (mkWorld [] (<["20260311_system_health.log"%string := ["old"%string]]> ∅) 0 0)
    = (inr logger, w') /\
    fs w' !! "20260311_system_health.log"%string = Some [].
Proof.
  split; [reflexivity|].
  destruct (import_truncates_log Examples.env_ok
              (mkWorld [] (<["20260311_system_health.log"%string := ["old"%string]]> ∅) 0 0)
              eq_refl) as (logger & w' & H1 & _ & H3 & _).
  exists logger, w'. split; [exact H1|exact H3].
Defined.

(** X15: when the sources and the sinks work, one call of
    [generate_report] on the configured logger returns normally and adds
    its thirteen lines after what the terminal and the log file already
    hold; it removes nothing and touches no other file. *)
Theorem generate_report_appends (float_str : Q -> string) (env : Env)
    (cpu mem disk : Q) (lf : string) (w : World) :
  sources_ok env cpu mem disk ->
  fst (generate_report float_str env (configured_logger lf) w) = inr tt /\
  stderr (snd (generate_report float_str env (configured_logger lf) w))
  = stderr w ++ report_at float_str env (clock_reads w) /\
  fs (snd (generate_report float_str env (configured_logger lf) w)) !! lf
  = Some (default [] (fs w !! lf) ++ report_at float_str env (clock_reads w)) /\
  length (report_at float_str env (clock_reads w)) = 13%nat /\
  (forall path, path <> lf ->
     fs (snd (generate_report float_str env (configured_logger lf) w)) !! path
     = fs w !! path).
Proof.
  intros H. destruct w as [out files c r].
  rewrite (generate_report_clean float_str env cpu mem disk lf out files c r H).
  cbn [fst snd stderr fs clock_reads].
  split; [reflexivity|]. split; [reflexivity|].
  split; [apply lookup_insert_eq|]. split; [reflexivity|].
  intros path Hne. now rewrite lookup_insert_ne.
Qed.

Lemma generate_report_appends_witness :
  sources_ok Examples.env_ok (295 # 10) 50 (812 # 10) /\
  stderr (snd (generate_report Examples.float_str Examples.env_ok
                 (configured_logger "x.log") (mkWorld ["kept"%string] ∅ 0 0)))
  = ["kept"%string] ++ report_at Examples.float_str Examples.env_ok 0.
Proof.
  assert (H : sources_ok Examples.env_ok (295 # 10) 50 (812 # 10))
    by (repeat split; reflexivity).
  split; [exact H|].
  exact (proj1 (proj2 (generate_report_appends Examples.float_str Examples.env_ok
                         _ _ _ "x.log" (mkWorld ["kept"%string] ∅ 0 0) H))).
Defined.

(** X16: within one process the log file is opened once, so a second call
    of [generate_report] does not overwrite the first report: after two
    calls the terminal and the log file both hold the twenty-six lines of
    the two reports, in order. *)
Theorem report_twice_accumulates (float_str : Q -> string) (env : Env)
    (files : gmap string (list string)) (cpu mem disk : Q) :
  runs_clean env cpu mem disk ->
  fst (report_twice float_str env (mkWorld [] files 0 0)) = inr tt /\
  stderr (snd (report_twice float_str env (mkWorld [] files 0 0)))
  = report_at float_str env 1 ++ report_at float_str env 15 /\
  fs (snd (report_twice float_str env (mkWorld [] files 0 0)))
    !! log_filename (clock env 0%nat)
  = Some (report_at float_str env 1 ++ report_at float_str env 15) /\
  length (report_at float_str env 1 ++ report_at float_str env 15) = 26%nat /\
  report_at float_str env 1 = full_report float_str env.
Proof.
  intros (Hc & Hm & Hd & Hopen & Hw).
  assert (Hs : sources_ok env cpu mem disk) by (repeat split; assumption).
  unfold report_twice.
  rewrite bind_eval, module_body_eval, Hopen.
  rewrite bind_eval, (generate_report_clean _ _ _ _ _ _ _ _ _ _ Hs).
  rewrite (generate_report_clean _ _ _ _ _ _ _ _ _ _ Hs).
  cbn [fst snd stderr fs opened_content Nat.add].
  rewrite !lookup_insert_eq. cbn [default app].
  repeat split; reflexivity.
Qed.

Lemma report_twice_accumulates_witness :
  runs_clean Examples.env_ok (295 # 10) 50 (812 # 10) /\
  length (stderr (snd (report_twice Examples.float_str Examples.env_ok
                         (mkWorld [] ∅ 0 0)))) = 26%nat.
Proof.
  assert (H : runs_clean Examples.env_ok (295 # 10) 50 (812 # 10))
    by (repeat split; reflexivity).
  split; [exact H|].
  destruct (report_twice_accumulates Examples.float_str Examples.env_ok ∅ _ _ _ H)
    as (_ & H2 & _ & H4 & _).
  rewrite H2. exact H4.
Defined.
